(** * Table discovery and column normalisation of the box-office scraper

    Shallow embedding of [src/src/app.py]: [to_number], [find_target_table],
    the column clean-up done by [main] (role matching with [pick], the
    money-like and ordinal conversions) and the run of [main] itself as a
    state/exception computation over the persisted store and the chart
    inputs.

    Text is modelled as Rocq [string]s, i.e. the UTF-8 bytes of the Python
    [str].  [str.lower] is modelled on ASCII and on the Latin-1 supplement
    (the letters of the Spanish labels); the regex class [\d] is modelled
    as the decimal digits of Unicode (category Nd), read off the UTF-8
    encoding. *)

From Stdlib Require Import String Ascii ZArith List Bool Lia.
Import ListNotations.
Open Scope string_scope.
Open Scope Z_scope.
Set Warnings "-register-all".

(** ** Python values and exceptions *)

(** A cell of the raw table read by [pd.read_html]: text or a missing marker. *)
Inductive cell : Type :=
| CNA
| CStr (s : string).

(** A cell of the normalised table.  [VFloat m e] is the float64 parsed by
    pandas from a decimal whose (at most 17) leading significant digits are
    [m] and whose decimal exponent is [e]: the double nearest [m * 10^e];
    [VInf neg] is an infinite float. *)
Inductive val : Type :=
| VNA
| VStr (s : string)
| VInt (z : Z)
| VFloat (m e : Z)
| VInf (neg : bool).

Definition embed (c : cell) : val :=
  match c with CNA => VNA | CStr s => VStr s end.

(** The exceptions the modelled code can raise. *)
Inductive py_error : Type :=
| ConnectionError
| HTTPError (status : Z)
| RuntimeError (msg : string)
| ValueError (msg : string)
| TypeError (msg : string)
| KeyError (key : string)
| OperationalError (msg : string)
| OverflowError (msg : string)
(** A bar chart handed a frame without rows: pandas' [barh] raises
    [IndexError] on a numeric column and [TypeError("no numeric data to
    plot")] on an object column. *)
| NothingToPlot.

Inductive exc (A : Type) : Type :=
| Ok (a : A)
| Raise (e : py_error).
Arguments Ok {A} a.
Arguments Raise {A} e.

Definition exc_bind {A B} (m : exc A) (f : A -> exc B) : exc B :=
  match m with Ok a => f a | Raise e => Raise e end.

Notation "x <- m ;; k" := (exc_bind m (fun x => k))
  (at level 61, m at next level, right associativity).

Fixpoint mapM {A B} (f : A -> exc B) (l : list A) : exc (list B) :=
  match l with
  | [] => Ok []
  | x :: r => y <- f x ;; ys <- mapM f r ;; Ok (y :: ys)
  end.

(** ** Bytes and text *)

Definition code (c : ascii) : Z := Z.of_N (N_of_ascii c).
Definition chr (z : Z) : ascii := ascii_of_N (Z.to_N z).

Definition is_digit (c : ascii) : bool := (48 <=? code c) && (code c <=? 57).
Definition digit_val (c : ascii) : Z := code c - 48.

(** [isspace_ascii] of pandas' C parser. *)
Definition is_space_ascii (c : ascii) : bool :=
  (code c =? 32) || ((9 <=? code c) && (code c <=? 13)).

(** [str.lower]: ASCII capitals and the capitals U+00C0..U+00DE (but U+00D7)
    of the Latin-1 supplement, whose UTF-8 form is [C3 80..9E]. *)
Fixpoint py_lower (s : string) : string :=
  match s with
  | EmptyString => EmptyString
  | String c r =>
      if (65 <=? code c) && (code c <=? 90) then String (chr (code c + 32)) (py_lower r)
      else if code c =? 195 then
        match r with
        | String d r' =>
            if (128 <=? code d) && (code d <=? 158) && negb (code d =? 151)
            then String c (String (chr (code d + 32)) (py_lower r'))
            else String c (String d (py_lower r'))
        | EmptyString => String c EmptyString
        end
      else String c (py_lower r)
  end.

(** [pattern in text] for Python strings. *)
Fixpoint contains (pat s : string) : bool :=
  String.prefix pat s ||
  match s with EmptyString => false | String _ r => contains pat r end.

(** Characters removed by [str.strip()] at the ends of a label: ASCII
    whitespace (9..13, 28..32) and U+0085, U+00A0 ([C2 85], [C2 A0]). *)
Definition is_space_byte (c : ascii) : bool :=
  ((9 <=? code c) && (code c <=? 13)) || ((28 <=? code c) && (code c <=? 32)).

Fixpoint lstrip (s : string) : string :=
  match s with
  | String c r =>
      if is_space_byte c then lstrip r
      else if code c =? 194 then
        match r with
        | String d r' => if (code d =? 133) || (code d =? 160) then lstrip r' else s
        | EmptyString => s
        end
      else s
  | EmptyString => s
  end.

Fixpoint rev_str (s : string) (acc : string) : string :=
  match s with EmptyString => acc | String c r => rev_str r (String c acc) end.

(** Left strip of a reversed string: U+0085 / U+00A0 appear there as
    [85 C2] / [A0 C2]. *)
Fixpoint lstrip_rev (s : string) : string :=
  match s with
  | String c r =>
      if is_space_byte c then lstrip_rev r
      else if (code c =? 133) || (code c =? 160) then
        match r with
        | String d r' => if code d =? 194 then lstrip_rev r' else s
        | EmptyString => s
        end
      else s
  | EmptyString => s
  end.

Definition py_strip (s : string) : string :=
  rev_str (lstrip_rev (rev_str (lstrip s) EmptyString)) EmptyString.

(** ** [to_number] *)

(** The ASCII digits of a string, in order: what [int()] reads of a text
    that [floatify] accepted as an integer. *)
Fixpoint keep_digits (s : string) : string :=
  match s with
  | EmptyString => EmptyString
  | String c r => if is_digit c then String c (keep_digits r) else keep_digits r
  end.

(** The code point of a 2-, 3- or 4-byte UTF-8 sequence. *)
Definition cp2 (a b : ascii) : Z := (code a - 192) * 64 + (code b - 128).
Definition cp3 (a b c : ascii) : Z :=
  ((code a - 224) * 64 + (code b - 128)) * 64 + (code c - 128).
Definition cp4 (a b c d : ascii) : Z :=
  (((code a - 240) * 64 + (code b - 128)) * 64 + (code c - 128)) * 64 + (code d - 128).

(** The decimal digits of Unicode (category Nd) come in runs of ten code
    points, 0 to 9; these are the first code points of the runs in Unicode
    14.0 (the database of Python 3.11). *)
Definition nd_zeros : list Z :=
  [48; 1632; 1776; 1984; 2406; 2534; 2662; 2790; 2918; 3046;
   3174; 3302; 3430; 3558; 3664; 3792; 3872; 4160; 4240; 6112;
   6160; 6470; 6608; 6784; 6800; 6992; 7088; 7232; 7248; 42528;
   43216; 43264; 43472; 43504; 43600; 44016; 65296; 66720; 68912; 69734;
   69872; 69942; 70096; 70384; 70736; 70864; 71248; 71360; 71472; 71904;
   72016; 72784; 73040; 73120; 92768; 92864; 93008; 120782; 120792; 120802;
   120812; 120822; 123200; 123632; 125264; 130032].

Definition is_decimal_cp (u : Z) : bool :=
  existsb (fun z => (z <=? u) && (u <=? z + 9)) nd_zeros.

Definition is_cont (c : ascii) : bool := (128 <=? code c) && (code c <? 192).

(** [re.sub(r"[^\d]", "", s)] on a [str]: [\d] matches every character of
    category Nd.  The walk reads the UTF-8 encoding of [s] one character
    (one to four bytes) at a time and keeps the bytes of the digits (the
    continuation-byte tests only matter for byte strings that encode no
    [str]). *)
Fixpoint keep_decimal (s : string) : string :=
  match s with
  | EmptyString => EmptyString
  | String a r =>
      if code a <? 128 then
        if is_digit a then String a (keep_decimal r) else keep_decimal r
      else if code a <? 224 then
        match r with
        | String b r1 =>
            if is_cont b && is_decimal_cp (cp2 a b) then String a (String b (keep_decimal r1))
            else keep_decimal r1
        | EmptyString => EmptyString
        end
      else if code a <? 240 then
        match r with
        | String b (String c r2) =>
            if is_cont b && is_cont c && is_decimal_cp (cp3 a b c) then String a (String b (String c (keep_decimal r2)))
            else keep_decimal r2
        | _ => EmptyString
        end
      else
        match r with
        | String b (String c (String d r3)) =>
            if is_cont b && is_cont c && is_cont d && is_decimal_cp (cp4 a b c d)
            then String a (String b (String c (String d (keep_decimal r3))))
            else keep_decimal r3
        | _ => EmptyString
        end
  end.

(** The integer a digit string denotes. *)
Fixpoint digits_value_acc (acc : Z) (s : string) : Z :=
  match s with
  | EmptyString => acc
  | String c r => digits_value_acc (acc * 10 + digit_val c) r
  end.
Definition digits_value (s : string) : Z := digits_value_acc 0 s.

(** ** pandas' numeric parse ([pd.to_numeric] on a scalar)

    [maybe_convert_numeric] hands a non-empty string to [floatify], which
    runs [precise_xstrtod] on its UTF-8 bytes (a C string, cut at the first
    NUL), accepts the spellings of infinity, and otherwise raises
    [ValueError]. *)

Definition ascii_lower (c : ascii) : ascii :=
  if (65 <=? code c) && (code c <=? 90) then chr (code c + 32) else c.

Fixpoint str_ascii_lower (s : string) : string :=
  match s with
  | EmptyString => EmptyString
  | String c r => String (ascii_lower c) (str_ascii_lower r)
  end.

(** The C view of a Python string: the bytes before the first NUL. *)
Fixpoint cstr (s : string) : string :=
  match s with
  | EmptyString => EmptyString
  | String c r => if code c =? 0 then EmptyString else String c (cstr r)
  end.

Fixpoint skip_ws (s : string) : string :=
  match s with
  | String c r => if is_space_ascii c then skip_ws r else s
  | EmptyString => s
  end.

Fixpoint skip_digits (s : string) : string :=
  match s with
  | String c r => if is_digit c then skip_digits r else s
  | EmptyString => s
  end.

(** Optional sign: (negative, consumed, rest). *)
Definition read_sign (s : string) : bool * bool * string :=
  match s with
  | String c r =>
      if code c =? 45 then (true, true, r)
      else if code c =? 43 then (false, true, r)
      else (false, false, s)
  | EmptyString => (false, false, s)
  end.

(** [max_digits] of [precise_xstrtod]. *)
Definition max_digits : Z := 17.

(** Integer part: digits beyond the 17th only bump the exponent. *)
Fixpoint xs_int (nd num ex : Z) (s : string) : Z * Z * Z * string :=
  match s with
  | String c r =>
      if is_digit c then
        if nd <? max_digits then xs_int (nd + 1) (num * 10 + digit_val c) ex r
        else xs_int nd num (ex + 1) r
      else (nd, num, ex, s)
  | EmptyString => (nd, num, ex, s)
  end.

(** Decimal part, read while fewer than 17 digits were taken. *)
Fixpoint xs_frac (nd num ndec : Z) (s : string) : Z * Z * Z * string :=
  match s with
  | String c r =>
      if (nd <? max_digits) && is_digit c
      then xs_frac (nd + 1) (num * 10 + digit_val c) (ndec + 1) r
      else (nd, num, ndec, s)
  | EmptyString => (nd, num, ndec, s)
  end.

(** Exponent digits (at most 17). *)
Fixpoint xs_expdigits (nd n : Z) (s : string) : Z * Z * string :=
  match s with
  | String c r =>
      if (nd <? max_digits) && is_digit c
      then xs_expdigits (nd + 1) (n * 10 + digit_val c) r
      else (nd, n, s)
  | EmptyString => (nd, n, s)
  end.

(** Outcome of [precise_xstrtod]: [XsError] is [*error = ERANGE];
    otherwise the sign, the 17-digit mantissa, the decimal exponent, the
    [maybe_int] flag and the end pointer (after trailing spaces). *)
Inductive xs_result : Type :=
| XsError
| XsNum (neg : bool) (mant ex : Z) (maybe_int : bool) (rest : string).

(** The overflow test [number == HUGE_VAL] after [number *= e[exponent]],
    read in exact arithmetic: the value reaches 2^1024. *)
Definition xs_overflows (mant ex : Z) : bool :=
  (0 <? ex) && (2 ^ 1024 <=? mant * 10 ^ ex).

Definition precise_xstrtod (s : string) : xs_result :=
  let p := skip_ws s in
  let '(neg, _, p) := read_sign p in
  let '(nd, num, ex, p) := xs_int 0 0 0 p in
  let '(mi, nd, num, ex, p) :=
    match p with
    | String c r =>
        if code c =? 46 then
          let '(nd', num', ndec, p') := xs_frac nd num 0 r in
          (false, nd', num', ex - ndec,
           if max_digits <=? nd' then skip_digits p' else p')
        else (true, nd, num, ex, p)
    | EmptyString => (true, nd, num, ex, p)
    end in
  if nd =? 0 then XsError else
  let '(mi, ex, p) :=
    match p with
    | String c r =>
        if code (ascii_lower c) =? 101 then
          let '(eneg, signed, q) := read_sign r in
          let '(end_nd, n, q') := xs_expdigits 0 0 q in
          (false, (if eneg then ex - n else ex + n),
           (* no exponent digit: un-consume one character *)
           if end_nd =? 0 then (if signed then r else p) else q')
        else (mi, ex, p)
    | EmptyString => (mi, ex, p)
    end in
  if 308 <? ex then XsError
  else if xs_overflows num ex then XsError
  else XsNum neg num ex mi (skip_ws p).

Inductive float_result : Type :=
| FNum (neg : bool) (mant ex : Z) (maybe_int : bool)
| FInfinity (neg : bool)
| FParseError.

(** [floatify]: [to_double], then the spellings of infinity. *)
Definition floatify (s : string) : float_result :=
  let d := cstr s in
  match precise_xstrtod d with
  | XsNum neg m e mi EmptyString => FNum neg m e mi
  | _ =>
      let l := str_ascii_lower d in
      if String.eqb l "inf" || String.eqb l "+inf" || String.eqb l "infinity"
         || String.eqb l "+infinity" then FInfinity false
      else if String.eqb l "-inf" || String.eqb l "-infinity" then FInfinity true
      else FParseError
  end.

(** Python's [int(val)] once [floatify] accepted [val] as an integer: the
    text is blanks, a sign, digits, blanks; it fails on an embedded NUL. *)
Definition py_int (neg : bool) (s : string) : option Z :=
  if String.eqb (cstr s) s then
    let v := digits_value (keep_digits s) in Some (if neg then - v else v)
  else None.

Inductive errors_mode : Type := ERaise | ECoerce.

Definition INT64_MIN : Z := - 2 ^ 63.
Definition UINT64_MAX : Z := 2 ^ 64 - 1.

(** [maybe_convert_numeric] on one string. *)
Definition convert_numeric_str (errors : errors_mode) (s : string) : exc val :=
  let fail msg := match errors with ECoerce => Ok VNA | ERaise => Raise (ValueError msg) end in
  if String.eqb s "" then Ok VNA else
  match floatify s with
  | FParseError => fail "Unable to parse string"
  | FInfinity neg => Ok (VInf neg)
  | FNum neg m e false => Ok (VFloat (if neg then - m else m) e)
  | FNum neg m e true =>
      match py_int neg s with
      | None => fail "invalid literal for int()"
      | Some z =>
          if (z <? INT64_MIN) || (UINT64_MAX <? z) then
            match errors with
            | ECoerce => Ok (VFloat (if neg then - m else m) e)
            | ERaise => Raise (ValueError "Integer out of range.")
            end
          else Ok (VInt z)
      end
  end.

(** [pd.to_numeric(x, errors=...)] on a scalar. *)
Definition to_numeric (errors : errors_mode) (x : val) : exc val :=
  match x with
  | VStr s => convert_numeric_str errors s
  | _ => Ok x
  end.

(** [to_number(x)]:  [pd.isna(x)] gives [pd.NA]; else [str(x)], keep the
    decimal digits, [pd.to_numeric(s, errors="coerce")]. *)
Definition to_number (x : cell) : exc val :=
  match x with
  | CNA => Ok VNA
  | CStr s => to_numeric ECoerce (VStr (keep_decimal s))
  end.

(** ** The parsed document and [find_target_table] *)

(** A node of the BeautifulSoup tree: text, or an element with its tag
    name, its [class] tokens and its children. *)
Inductive node : Type :=
| Text (s : string)
| Elem (tag : string) (classes : list string) (kids : list node).

(** [soup.select("table.wikitable")]: the [table] elements carrying the
    class [wikitable], in document (pre-)order. *)
Definition is_wikitable (n : node) : bool :=
  match n with
  | Elem tag cls _ => String.eqb tag "table" && existsb (String.eqb "wikitable") cls
  | Text _ => false
  end.

Fixpoint select_wikitables (n : node) : list node :=
  match n with
  | Text _ => []
  | Elem _ _ kids =>
      (if is_wikitable n then [n] else []) ++ flat_map select_wikitables kids
  end.

Fixpoint first_some {A} (l : list (option A)) : option A :=
  match l with
  | [] => None
  | Some a :: _ => Some a
  | None :: r => first_some r
  end.

(** The node itself or its first descendant with the given tag. *)
Fixpoint find_tag_self (tag : string) (n : node) : option node :=
  match n with
  | Text _ => None
  | Elem t _ kids =>
      if String.eqb t tag then Some n else first_some (map (find_tag_self tag) kids)
  end.

(** [t.find(tag)]: the first descendant with that tag. *)
Definition find_tag (tag : string) (n : node) : option node :=
  match n with
  | Text _ => None
  | Elem _ _ kids => first_some (map (find_tag_self tag) kids)
  end.

Fixpoint text_pieces (n : node) : list string :=
  match n with
  | Text s => [s]
  | Elem _ _ kids => flat_map text_pieces kids
  end.

(** [get_text(strip=True)]: the stripped text pieces, joined by "". *)
Definition get_text_strip (n : node) : string :=
  String.concat "" (map py_strip (text_pieces n)).

(** [str(t)]: the serialisation of a node ([&], [<], [>] escaped in text). *)
Definition dq : string := String (ascii_of_N 34) EmptyString.

Fixpoint escape_text (s : string) : string :=
  match s with
  | EmptyString => EmptyString
  | String c r =>
      (if code c =? 38 then "&amp;" else if code c =? 60 then "&lt;"
       else if code c =? 62 then "&gt;" else String c EmptyString) ++ escape_text r
  end.

Fixpoint str_node (n : node) : string :=
  match n with
  | Text s => escape_text s
  | Elem tag cls kids =>
      "<" ++ tag
      ++ (match cls with [] => "" | _ => " class=" ++ dq ++ String.concat " " cls ++ dq end)
      ++ ">" ++ String.concat "" (map str_node kids) ++ "</" ++ tag ++ ">"
  end.

(** The caption heuristic of line 34. *)
Definition caption_matches (text : string) : bool :=
  (contains "recaudaciones" text || contains "recaudación" text)
  && (contains "mundial" text || contains "mundo" text).

(** A table whose caption passes the heuristic. *)
Definition table_matches (t : node) : bool :=
  match find_tag "caption" t with
  | Some cap => caption_matches (py_lower (get_text_strip cap))
  | None => false
  end.

(** The [for] loop of [find_target_table]. *)
Fixpoint first_match (ts : list node) : option string :=
  match ts with
  | [] => None
  | t :: r => if table_matches t then Some (str_node t) else first_match r
  end.

Definition find_target_table (soup : node) : option string :=
  match first_match (select_wikitables soup) with
  | Some h => Some h
  | None =>
      (* first = soup.select_one("table.wikitable") *)
      match select_wikitables soup with
      | first :: _ => Some (str_node first)
      | [] => None
      end
  end.

(** ** Column roles: [pick] *)

(** [pick(col_opts)] over the (stripped) labels [columns]. *)
Definition pick (columns : list string) (col_opts : list string) : option string :=
  first_some
    (map (fun pattern => find (fun c => contains pattern (py_lower c)) columns) col_opts).

Definition movie_opts : list string := ["título"; "titulo"; "película"; "pelicula"; "film"].
Definition world_opts : list string :=
  ["recaudación mundial"; "recaudacion mundial"; "mundial"; "global"].
Definition domestic_opts : list string := ["ee. uu."; "ee. uu"; "estados unidos"].
Definition foreign_opts : list string :=
  ["fuera de ee. uu."; "fuera de ee. uu"; "internacional"; "resto del mundo"].
Definition year_opts : list string := ["año de estreno"; "año"; "ano"; "estreno"].

Record roles : Type := {
  col_movie : option string;
  col_world : option string;
  col_domestic : option string;
  col_foreign : option string;
  col_year : option string
}.

Definition pick_roles (columns : list string) : roles := {|
  col_movie := pick columns movie_opts;
  col_world := pick columns world_opts;
  col_domestic := pick columns domestic_opts;
  col_foreign := pick columns foreign_opts;
  col_year := pick columns year_opts
|}.

(** ** Column normalisation (lines 52-82 of [main]) *)

Definition raw_table : Type := list (string * list cell).
Definition table : Type := list (string * list val).

Definition money_tokens : list string :=
  ["recaudación"; "recaudacion"; "taquilla"; "mundial"; "ee. uu"; "fuera"].

Definition is_money (c : string) : bool :=
  existsb (fun k => contains k (py_lower c)) money_tokens.

Definition rank_labels : list string :=
  ["n.º"; "nº"; "n°"; "puesto"; "rango"; "posición"; "posicion"].

(** [low in ("n.º", ...)]: an exact comparison. *)
Definition is_rank (name : string) : bool :=
  existsb (String.eqb (py_lower name)) rank_labels.

Definition count_label (c : string) (columns : list string) : nat :=
  length (filter (String.eqb c) columns).

(** Truthiness of an optional label ([None] and [""] are false). *)
Definition truthy (o : option string) : bool :=
  match o with Some s => negb (String.eqb s "") | None => false end.

(** [for c in money_like: df[c] = df[c].apply(to_number)].  With a label
    held by two columns [df[c]] is a DataFrame, and [to_number] then tests
    the truth value of a Series, which raises. *)
Definition convert_money (df : raw_table) : exc table :=
  let columns := map fst df in
  let money_like := filter is_money columns in
  if existsb (fun c => Nat.ltb 1 (count_label c columns)) money_like
  then Raise (ValueError "The truth value of a Series is ambiguous.")
  else
    mapM (fun '(c, cs) =>
            if existsb (String.eqb c) money_like
            then vs <- mapM to_number cs ;; Ok (c, vs)
            else Ok (c, map embed cs)) df.

(** [pd.to_numeric(series, errors="coerce", downcast="integer")], value
    by value (the column dtype chosen by the downcast is not modelled). *)
Definition to_numeric_series (vs : list val) : exc (list val) :=
  mapM (to_numeric ECoerce) vs.

Definition is_year_col (r : roles) (name : string) : bool :=
  truthy (col_year r) &&
  match col_year r with Some y => String.eqb name y | None => false end.

(** The ordinal loop of lines 77-82; [pd.to_numeric] of a DataFrame (a
    label held by two columns) raises [TypeError]. *)
Definition convert_ordinal (r : roles) (df : table) : exc table :=
  let columns := map fst df in
  if existsb (fun n => (is_rank n || is_year_col r n) && Nat.ltb 1 (count_label n columns)) columns
  then Raise (TypeError "arg must be a list, tuple, 1-d array, or Series")
  else
    mapM (fun '(name, vs) =>
            vs1 <- (if is_rank name then to_numeric_series vs else Ok vs) ;;
            vs2 <- (if is_year_col r name then to_numeric_series vs1 else Ok vs1) ;;
            Ok (name, vs2)) df.

Definition strip_labels (raw : raw_table) : raw_table :=
  map (fun '(l, cs) => (py_strip l, cs)) raw.

(** Lines 53-82: strip the labels, pick the roles, convert. *)
Definition normalize (raw : raw_table) : exc (roles * table) :=
  let df := strip_labels raw in
  let r := pick_roles (map fst df) in
  df1 <- convert_money df ;;
  df2 <- convert_ordinal r df1 ;;
  Ok (r, df2).

(** ** The run of [main] *)

Definition column_of (df : table) (l : string) : list val :=
  match find (fun p => String.eqb (fst p) l) df with Some (_, vs) => vs | None => [] end.

(** [len(df)]. *)
Definition nrows (df : table) : nat :=
  match df with (_, vs) :: _ => length vs | [] => O end.

(** [df[[l1, l2, ...]]] as a list of rows, in row order. *)
Definition rows_of (df : table) (ls : list string) : list (list val) :=
  map (fun i => map (fun l => nth i (column_of df l) VNA) ls) (seq 0 (nrows df)).

Definition is_na (v : val) : bool := match v with VNA => true | _ => false end.

(** [.dropna()]: rows holding no missing value. *)
Definition dropna (rows : list (list val)) : list (list val) :=
  filter (fun row => negb (existsb is_na row)) rows.

(** A chart, recorded with the frame handed to the plotting library. *)
Inductive chart : Type :=
| TopWorld (rows : list (list val))
| WorldByYear (rows : list (list val))
| DomesticForeign (rows : list (list val)).

(** What a run leaves behind: the table stored in SQLite (the previous
    content, replaced by [to_sql(..., if_exists="replace")]), the charts
    shown, the lines printed. *)
Record St : Type := {
  store : option table;
  charts : list chart;
  printed : list string
}.

Definition persist (df : table) (st : St) : St :=
  {| store := Some df; charts := charts st; printed := printed st |}.

Definition draw (c : chart) (st : St) : St :=
  {| store := store st; charts := charts st ++ [c]; printed := printed st |}.

Definition say (line : string) (st : St) : St :=
  {| store := store st; charts := charts st; printed := printed st ++ [line] |}.

Definition label (o : option string) : string :=
  match o with Some s => s | None => "" end.

Definition DB_PATH : string := "box_office.db".
Definition TABLE_NAME : string := "peliculas_mas_taquilleras".

(** *** [df.to_sql(TABLE_NAME, con, if_exists="replace", index=False)] *)

Fixpoint has_nul (s : string) : bool :=
  match s with
  | EmptyString => false
  | String c r => (code c =? 0) || has_nul r
  end.

(** [_get_valid_sqlite_name] on a column label, run when pandas builds the
    [CREATE TABLE] statement, before anything touches the database. *)
Definition sqlite_name_error (l : string) : option string :=
  if String.eqb l "" then Some "Empty table or column name specified"
  else if has_nul l then Some "SQLite identifier cannot contain NULs"
  else None.

(** SQLite's [CREATE TABLE], column by column: at most 2000 columns, and no
    two names equal under [sqlite3StrICmp] (ASCII case folding); a table
    without columns is a syntax error. *)
Fixpoint create_error_aux (i : nat) (seen : list string) (ls : list string) : option string :=
  match ls with
  | [] => None
  | l :: r =>
      if Nat.leb 2000 i then Some ("too many columns on " ++ TABLE_NAME)
      else if existsb (String.eqb (str_ascii_lower l)) seen
      then Some ("duplicate column name: " ++ l)
      else create_error_aux (S i) (str_ascii_lower l :: seen) r
  end.

Definition create_error (ls : list string) : option string :=
  match ls with
  | [] => Some ("near " ++ dq ++ ")" ++ dq ++ ": syntax error")
  | _ => create_error_aux O [] ls
  end.

Definition INT64_MAX : Z := 2 ^ 63 - 1.

(** A column pandas holds as [uint64] (integers only, none negative) with a
    value beyond int64: [insert_data] turns it into Python [int]s, which
    sqlite3 cannot bind.  A missing value or a float makes the column
    float64 or object, whose values bind. *)
Definition uint64_overflow (vs : list val) : bool :=
  forallb (fun v => match v with VInt z => 0 <=? z | _ => false end) vs &&
  existsb (fun v => match v with VInt z => INT64_MAX <? z | _ => false end) vs.

Definition set_store (t : option table) (st : St) : St :=
  {| store := t; charts := charts st; printed := printed st |}.

(** Lines 84-89.  The labels are checked first; then [if_exists="replace"]
    drops the old table (sqlite3 runs [DROP TABLE] outside a transaction, so
    the drop stays), creates the new one and inserts the rows in one
    transaction, rolled back when a value cannot be bound. *)
Definition to_sql (df : table) (st : St) : exc unit * St :=
  match first_some (map (fun p => sqlite_name_error (fst p)) df) with
  | Some msg => (Raise (ValueError msg), st)
  | None =>
      match create_error (map fst df) with
      | Some msg => (Raise (OperationalError msg), set_store None st)
      | None =>
          if existsb (fun p => uint64_overflow (snd p)) df
          then (Raise (OverflowError "Python int too large to convert to SQLite INTEGER"),
                set_store (Some (map (fun p => (fst p, [])) df)) st)
          else (Ok tt, persist df st)
      end
  end.

(** *** The charts, lines 91-135 *)

(** A value that makes [x / 1e9] raise. *)
Definition is_text (v : val) : bool := match v with VStr _ => true | _ => false end.

(** The frame reaches the charts only after [to_sql] accepted it, so its
    labels are distinct; its money-like, rank and year columns hold numbers
    or missing values.  A chart is recorded with the frame handed to the
    plotting library; sorting and scaling are not modelled, only where they
    raise. *)

(** Lines 93-103: [sort_values] on a label held by both columns of
    [df[[col_movie, col_world]]] (the two roles share a column) raises
    [ValueError]; sorting or [/ 1e9] on text raises [TypeError]; [barh] on
    a frame without rows raises. *)
Definition chart_top (r : roles) (df : table) (st : St) : exc St :=
  let m := label (col_movie r) in
  let w := label (col_world r) in
  if truthy (col_world r) && truthy (col_movie r) then
    let top := dropna (rows_of df [m; w]) in
    if String.eqb m w then Raise (ValueError ("The column label '" ++ w ++ "' is not unique."))
    else if existsb (fun row => is_text (nth 1 row VNA)) top
    then Raise (TypeError "unsupported operand type(s) for /: 'str' and 'float'")
    else match top with
         | [] => Raise NothingToPlot
         | _ => Ok (draw (TopWorld top) st)
         end
  else Ok st.

(** Lines 105-120: [groupby] on a label held by both columns raises
    [ValueError]; summing or [/ 1e9] on text raises [TypeError];
    [plt.plot] accepts a frame without rows. *)
Definition chart_by_year (r : roles) (df : table) (st : St) : exc St :=
  let w := label (col_world r) in
  let y := label (col_year r) in
  if truthy (col_world r) && truthy (col_movie r) && truthy (col_year r) then
    let by_year := dropna (rows_of df [y; w]) in
    if String.eqb y w then Raise (ValueError ("Grouper for '" ++ y ++ "' not 1-dimensional"))
    else if existsb (fun row => is_text (nth 1 row VNA)) by_year
    then Raise (TypeError "unsupported operand type(s) for /: 'str' and 'float'")
    else Ok (draw (WorldByYear by_year) st)
  else Ok st.

(** Lines 122-135: [/ 1e9] on text raises [TypeError]; [sort_values] on the
    label [col_domestic + col_foreign] raises [KeyError] unless it is a
    column of [comp]; [barh] on a frame without rows raises. *)
Definition chart_comp (r : roles) (df : table) (st : St) : exc unit * St :=
  let m := label (col_movie r) in
  let d := label (col_domestic r) in
  let f := label (col_foreign r) in
  if truthy (col_domestic r) && truthy (col_foreign r) && truthy (col_movie r) then
    let comp := dropna (rows_of df [m; d; f]) in
    if existsb (fun row => is_text (nth 1 row VNA) || is_text (nth 2 row VNA)) comp
    then (Raise (TypeError "unsupported operand type(s) for /: 'str' and 'float'"), st)
    else if negb (existsb (String.eqb (d ++ f)) [m; d; f])
    then (Raise (KeyError (d ++ f)), st)
    else match comp with
         | [] => (Raise NothingToPlot, st)
         | _ => (Ok tt, draw (DomesticForeign comp) st)
         end
  else (Ok tt, st).

(** Lines 91-135, the three charts in turn. *)
Definition plot_charts (r : roles) (df : table) (st : St) : exc unit * St :=
  match chart_top r df st with
  | Raise e => (Raise e, st)
  | Ok st1 =>
      match chart_by_year r df st1 with
      | Raise e => (Raise e, st1)
      | Ok st2 => chart_comp r df st2
      end
  end.

Fixpoint nat_dec_aux (fuel n : nat) (acc : string) : string :=
  match fuel with
  | O => acc
  | S k =>
      let acc' := String (ascii_of_nat (48 + Nat.modulo n 10)) acc in
      if Nat.ltb n 10 then acc' else nat_dec_aux k (Nat.div n 10) acc'
  end.
Definition nat_dec (n : nat) : string := nat_dec_aux (S n) n "".

(** The HTTP outcome of [requests.get(URL, headers=HEADERS, timeout=30)]
    after redirects: a transport failure, or a final status and the body
    as parsed by [BeautifulSoup(resp.text, "html.parser")]. *)
Inductive response : Type :=
| FetchFailed
| Response (status : Z) (soup : node).

(** [resp.raise_for_status()]: client (4xx) and server (5xx) errors. *)
Definition raise_for_status (status : Z) : exc unit :=
  if (400 <=? status) && (status <? 600) then Raise (HTTPError status) else Ok tt.

Section Main.

(** [pd.read_html(table_html, flavor="bs4")[0]], the HTML-to-table parser. *)
Variable read_html : string -> exc raw_table.

Definition main (resp : response) (st : St) : exc unit * St :=
  match resp with
  | FetchFailed => (Raise ConnectionError, st)
  | Response status soup =>
      match raise_for_status status with
      | Raise e => (Raise e, st)
      | Ok _ =>
          let table_html := find_target_table soup in
          if negb (truthy table_html)
          then (Raise (RuntimeError "No encontré ninguna tabla wikitable en la página objetivo."), st)
          else
            match read_html (label table_html) with
            | Raise e => (Raise e, st)
            | Ok raw =>
                match normalize raw with
                | Raise e => (Raise e, st)
                | Ok (r, df) =>
                    match to_sql df st with
                    | (Raise e, st1) => (Raise e, st1)
                    | (Ok _, st1) =>
                        match plot_charts r df st1 with
                        | (Raise e, st2) => (Raise e, st2)
                        | (Ok _, st2) =>
                            (Ok tt, say ("Filas cargadas: " ++ nat_dec (nrows df) ++ " | DB: "
                                         ++ DB_PATH ++ " | Tabla: " ++ TABLE_NAME) st2)
                        end
                    end
                end
            end
      end
  end.

End Main.

(** ** Predicates used in the statements *)

Fixpoint all_digits (s : string) : bool :=
  match s with
  | EmptyString => true
  | String c r => is_digit c && all_digits r
  end.

(** Characters [precise_xstrtod] can consume: digits, blanks, signs, the
    decimal point and the exponent mark. *)
Definition numeric_char (c : ascii) : bool :=
  is_digit c || is_space_ascii c || (code c =? 43) || (code c =? 45)
  || (code c =? 46) || (code (ascii_lower c) =? 101).

Fixpoint has_non_numeric (s : string) : bool :=
  match s with
  | EmptyString => false
  | String c r => negb (numeric_char c) || has_non_numeric r
  end.

(** The spellings of infinity [floatify] accepts. *)
Definition inf_spelling (s : string) : bool :=
  existsb (String.eqb (str_ascii_lower s))
    ["inf"; "+inf"; "-inf"; "infinity"; "+infinity"; "-infinity"].

Definition no_str (v : val) : bool := match v with VStr _ => false | _ => true end.

(** The bytes [keep_decimal] can output: ASCII digits, and the bytes of
    multi-byte characters (128 and above). *)
Fixpoint digits_or_high (s : string) : bool :=
  match s with
  | EmptyString => true
  | String c r => (is_digit c || (128 <=? code c)) && digits_or_high r
  end.

Fixpoint has_high (s : string) : bool :=
  match s with
  | EmptyString => false
  | String c r => (128 <=? code c) || has_high r
  end.

(** [to_sql] accepts the frame: valid labels, a valid [CREATE TABLE], and
    values sqlite3 can bind. *)
Definition sql_storable (df : table) : bool :=
  match first_some (map (fun p => sqlite_name_error (fst p)) df) with
  | Some _ => false
  | None =>
      match create_error (map fst df) with
      | Some _ => false
      | None => negb (existsb (fun p => uint64_overflow (snd p)) df)
      end
  end.

(** [st'] keeps the store and the printed lines of [st], and adds charts. *)
Definition extends (st st' : St) : Prop :=
  store st' = store st /\ printed st' = printed st /\ exists new, charts st' = (charts st ++ new)%list.

Definition role_opts : list (list string) :=
  [movie_opts; world_opts; domestic_opts; foreign_opts; year_opts].

Definition St0 : St := {| store := None; charts := []; printed := [] |}.

(** ** Generic facts *)

Open Scope list_scope.

Lemma mapM_Forall2 {A B} (f : A -> exc B) l l' :
  mapM f l = Ok l' -> Forall2 (fun x y => f x = Ok y) l l'.
Proof.
  revert l'; induction l as [|x r IH]; simpl; intros l' H.
  - inversion H; constructor.
  - destruct (f x) eqn:Fx; simpl in H; [|discriminate].
    destruct (mapM f r) eqn:Fr; simpl in H; [|discriminate].
    inversion H; subst; constructor; auto.
Qed.

Lemma mapM_total {A B} (f : A -> exc B) l :
  (forall x, In x l -> exists y, f x = Ok y) -> exists l', mapM f l = Ok l'.
Proof.
  induction l as [|x r IH]; simpl; intros H.
  - eauto.
  - destruct (H x (or_introl eq_refl)) as [y Hy]; rewrite Hy; simpl.
    destruct IH as [l' Hl']; [intros; apply H; auto|]. rewrite Hl'; simpl; eauto.
Qed.

Lemma mapM_id {A} (f : A -> exc A) l :
  (forall x, In x l -> f x = Ok x) -> mapM f l = Ok l.
Proof.
  induction l as [|x r IH]; simpl; intros H; [reflexivity|].
  rewrite H by auto; simpl; rewrite IH by auto; reflexivity.
Qed.

Lemma Forall2_nth_error {A B} (R : A -> B -> Prop) l l' i x :
  Forall2 R l l' -> nth_error l i = Some x -> exists y, nth_error l' i = Some y /\ R x y.
Proof.
  intros HF; revert i; induction HF as [|a b r r' Hab HF IH]; intros [|i] Hi;
    simpl in *; try discriminate.
  - inversion Hi; subst; eauto.
  - eauto.
Qed.

Lemma Forall2_map_fst {A B C} (l : list (A * B)) (l' : list (A * C)) R :
  Forall2 (fun x y => fst y = fst x /\ R x y) l l' -> map fst l' = map fst l.
Proof. induction 1 as [|x y r r' [Hf _] _ IH]; simpl; congruence. Qed.

Lemma count_label_notin c l : ~ In c l -> count_label c l = O.
Proof.
  unfold count_label; induction l as [|a r IH]; simpl; intros H; [reflexivity|].
  destruct (String.eqb_spec c a); [subst; tauto|]. apply IH; tauto.
Qed.

Lemma count_label_NoDup c l : NoDup l -> Nat.ltb 1 (count_label c l) = false.
Proof.
  unfold count_label; induction 1 as [|a r Ha Hr IH]; simpl; [reflexivity|].
  destruct (String.eqb_spec c a); [|exact IH].
  subst. pose proof (count_label_notin a r Ha) as E; unfold count_label in E.
  simpl; rewrite E; reflexivity.
Qed.

Lemma existsb_eqb_filter (p : string -> bool) c l :
  In c l -> existsb (String.eqb c) (filter p l) = p c.
Proof.
  intros Hin. destruct (p c) eqn:Pc.
  - apply existsb_exists; exists c; split; [apply filter_In; auto|apply String.eqb_refl].
  - apply Bool.not_true_iff_false; intros Hx; apply existsb_exists in Hx.
    destruct Hx as [x [Hx Ex]]; apply filter_In in Hx as [_ Px].
    apply String.eqb_eq in Ex; subst; congruence.
Qed.

(** ** The numeric parse never raises under [errors="coerce"] *)

Lemma convert_numeric_coerce_total s :
  exists v, convert_numeric_str ECoerce s = Ok v /\ no_str v = true.
Proof.
  unfold convert_numeric_str.
  destruct (String.eqb s ""); [eauto|].
  destruct (floatify s) as [neg m e [|]|neg|]; try (eexists; split; reflexivity).
  destruct (py_int neg s); [|eauto].
  destruct (_ || _); eexists; split; reflexivity.
Qed.

Lemma to_numeric_no_str v : no_str v = true -> to_numeric ECoerce v = Ok v.
Proof. destruct v; simpl; congruence. Qed.

Lemma to_numeric_out v w : to_numeric ECoerce v = Ok w -> no_str v = true \/ no_str w = true.
Proof.
  destruct v as [|s| | |]; simpl; auto. intros H.
  destruct (convert_numeric_coerce_total s) as [w' [Hw' Nw']]. right; congruence.
Qed.

Lemma to_numeric_ok v : exists w, to_numeric ECoerce v = Ok w.
Proof.
  destruct v as [|s| | |]; simpl; eauto.
  destruct (convert_numeric_coerce_total s) as [w [Hw _]]; eauto.
Qed.

Lemma to_numeric_idem v w : to_numeric ECoerce v = Ok w -> to_numeric ECoerce w = Ok w.
Proof.
  intros H. destruct (to_numeric_out v w H) as [N|N].
  - rewrite (to_numeric_no_str v N) in H. inversion H; subst. now apply to_numeric_no_str.
  - now apply to_numeric_no_str.
Qed.

Lemma to_number_total c : exists v, to_number c = Ok v /\ no_str v = true.
Proof.
  destruct c as [|s]; simpl; eauto. apply convert_numeric_coerce_total.
Qed.

Lemma to_numeric_series_total vs : exists ws, to_numeric_series vs = Ok ws.
Proof. apply mapM_total; intros; apply to_numeric_ok. Qed.

Lemma to_numeric_series_no_str vs :
  forallb no_str vs = true -> to_numeric_series vs = Ok vs.
Proof.
  intros H; apply mapM_id; intros x Hx; apply to_numeric_no_str.
  rewrite forallb_forall in H; auto.
Qed.

Lemma to_numeric_series_idem vs ws :
  to_numeric_series vs = Ok ws -> to_numeric_series ws = Ok ws.
Proof.
  intros H; apply mapM_Forall2 in H; apply mapM_id.
  induction H as [|v w r r' Hvw _ IH]; simpl; intros x Hx; [contradiction|].
  destruct Hx as [<-|Hx]; [eapply to_numeric_idem; eauto|auto].
Qed.

Lemma mapM_to_number_no_str cs vs :
  mapM to_number cs = Ok vs -> forallb no_str vs = true.
Proof.
  intros H; apply mapM_Forall2 in H.
  induction H as [|c v r r' Hcv _ IH]; simpl; [reflexivity|].
  destruct (to_number_total c) as [v' [Hv' Nv']]. rewrite IH.
  replace v with v' by congruence. now rewrite Nv'.
Qed.

(** ** [to_number] on digit strings *)

Lemma is_digit_code c : is_digit c = true -> 48 <= code c <= 57.
Proof. unfold is_digit; rewrite andb_true_iff, !Z.leb_le; tauto. Qed.

Lemma keep_digits_all s : all_digits (keep_digits s) = true.
Proof.
  induction s as [|c r IH]; simpl; [reflexivity|].
  destruct (is_digit c) eqn:D; simpl; [rewrite D|]; auto.
Qed.

Lemma keep_digits_id s : all_digits s = true -> keep_digits s = s.
Proof.
  induction s as [|c r IH]; simpl; [reflexivity|].
  rewrite andb_true_iff; intros [D R]; rewrite D, IH; auto.
Qed.

Lemma cstr_digits s : all_digits s = true -> cstr s = s.
Proof.
  induction s as [|c r IH]; simpl; [reflexivity|].
  rewrite andb_true_iff; intros [D R]. apply is_digit_code in D.
  destruct (Z.eqb_spec (code c) 0); [lia|]. rewrite IH; auto.
Qed.

Lemma digits_value_acc_mono acc d :
  all_digits d = true -> 0 <= acc -> acc * 10 ^ Z.of_nat (String.length d) <= digits_value_acc acc d.
Proof.
  revert acc; induction d as [|c r IH]; intros acc D A; [simpl; lia|].
  replace (Z.of_nat (String.length (String c r))) with (Z.of_nat (String.length r) + 1)
    by (cbn [String.length]; lia).
  cbn [digits_value_acc all_digits] in *.
  rewrite andb_true_iff in D; destruct D as [D R]. apply is_digit_code in D.
  unfold digit_val. specialize (IH (acc * 10 + (code c - 48)) R ltac:(lia)).
  rewrite Z.pow_add_r, Z.pow_1_r by lia. nia.
Qed.

Lemma xs_int_digits d : forall nd num ex T nd' num' ex' rest,
  all_digits d = true -> 0 <= nd <= 17 -> 0 <= ex -> 0 <= num ->
  (0 < ex -> nd = 17) -> num * 10 ^ ex <= T ->
  xs_int nd num ex d = (nd', num', ex', rest) ->
  rest = EmptyString /\ num' * 10 ^ ex' <= digits_value_acc T d /\
  nd' + ex' = nd + ex + Z.of_nat (String.length d) /\ nd <= nd' <= 17 /\
  (0 < ex' -> nd' = 17) /\ 0 <= num' /\ 0 <= ex'.
Proof.
  induction d as [|c r IH]; intros nd num ex T nd' num' ex' rest D Hnd Hex Hnum Hsat HT E.
  - simpl in *; inversion E; subst. repeat split; lia.
  - replace (Z.of_nat (String.length (String c r))) with (Z.of_nat (String.length r) + 1)
      by (cbn [String.length]; lia).
    cbn [digits_value_acc all_digits xs_int] in *.
    rewrite andb_true_iff in D; destruct D as [D R]. rewrite D in E.
    pose proof (is_digit_code c D) as Dc. unfold digit_val in *.
    unfold max_digits in E. destruct (Z.ltb_spec nd 17).
    + assert (ex = 0) by (destruct (Z.ltb_spec 0 ex); [specialize (Hsat ltac:(lia)); lia|lia]).
      subst ex. rewrite Z.pow_0_r in HT.
      destruct (IH (nd + 1) (num * 10 + (code c - 48)) 0 (T * 10 + (code c - 48))
                  nd' num' ex' rest R ltac:(lia) ltac:(lia) ltac:(lia) ltac:(lia)
                  ltac:(rewrite Z.pow_0_r; lia) E) as (H1 & H2 & H3 & H4 & H5 & H6 & H7).
      repeat split; try lia; auto.
    + assert (nd = 17) by lia. subst nd.
      destruct (IH 17 num (ex + 1) (T * 10 + (code c - 48))
                  nd' num' ex' rest R ltac:(lia) ltac:(lia) ltac:(lia) ltac:(lia)
                  ltac:(rewrite Z.pow_add_r, Z.pow_1_r by lia; nia) E)
        as (H1 & H2 & H3 & H4 & H5 & H6 & H7).
      repeat split; try lia; auto.
Qed.

Lemma digits_value_acc_nonneg d acc :
  all_digits d = true -> 0 <= acc -> 0 <= digits_value_acc acc d.
Proof.
  revert acc; induction d as [|c r IH]; simpl; intros acc D A; [lia|].
  rewrite andb_true_iff in D; destruct D as [D R]. apply is_digit_code in D.
  apply IH; unfold digit_val; auto; lia.
Qed.

Lemma precise_xstrtod_digits d :
  all_digits d = true -> d <> EmptyString -> (String.length d <= 325)%nat ->
  digits_value d <= UINT64_MAX ->
  exists num ex, precise_xstrtod d = XsNum false num ex true EmptyString.
Proof.
  intros D Hne Hlen Hval. destruct d as [|c r]; [congruence|].
  pose proof D as D'. simpl in D'. rewrite andb_true_iff in D'. destruct D' as [Dc _].
  apply is_digit_code in Dc.
  assert (Hws : skip_ws (String c r) = String c r).
  { simpl. unfold is_space_ascii.
    destruct (Z.eqb_spec (code c) 32); [lia|].
    destruct (Z.leb_spec 9 (code c)); destruct (Z.leb_spec (code c) 13); simpl; try lia; auto. }
  assert (Hsg : read_sign (String c r) = (false, false, String c r)).
  { simpl. destruct (Z.eqb_spec (code c) 45); [lia|]. destruct (Z.eqb_spec (code c) 43); [lia|].
    reflexivity. }
  unfold precise_xstrtod. rewrite Hws, Hsg.
  destruct (xs_int 0 0 0 (String c r)) as [[[nd num] ex] rest] eqn:Hx.
  destruct (xs_int_digits (String c r) 0 0 0 0 nd num ex rest D ltac:(lia) ltac:(lia)
              ltac:(lia) ltac:(lia) ltac:(lia) Hx) as (-> & H2 & H3 & H4 & H5 & H6 & H7).
  change (digits_value_acc 0 (String c r)) with (digits_value (String c r)) in H2.
  cbn [String.length] in H3. apply Nat2Z.inj_le in Hlen. cbn [String.length] in Hlen.
  destruct (Z.eqb_spec nd 0); [lia|].
  assert (Hex : (308 <? ex) = false) by (apply Z.ltb_ge; destruct (Z.ltb_spec 0 ex); lia).
  assert (Hov : xs_overflows num ex = false).
  { unfold xs_overflows, UINT64_MAX in *.
    destruct (0 <? ex); simpl; [|reflexivity]. apply Z.leb_gt.
    assert (2 ^ 64 < 2 ^ 1024) by (apply Z.pow_lt_mono_r; lia). lia. }
  rewrite Hex, Hov. simpl. eauto.
Qed.

Lemma str_ascii_lower_digits d : all_digits d = true -> str_ascii_lower d = d.
Proof.
  induction d as [|c r IH]; simpl; [reflexivity|].
  rewrite andb_true_iff; intros [D R]. apply is_digit_code in D.
  unfold ascii_lower. destruct (Z.leb_spec 65 (code c)); [lia|]. simpl. rewrite IH; auto.
Qed.

Lemma precise_xstrtod_digits_any d :
  all_digits d = true -> d <> EmptyString ->
  precise_xstrtod d = XsError \/
  exists num ex, 0 <= num /\ precise_xstrtod d = XsNum false num ex true EmptyString.
Proof.
  intros D Hne. destruct d as [|c r]; [congruence|].
  pose proof D as D'. simpl in D'. rewrite andb_true_iff in D'. destruct D' as [Dc _].
  apply is_digit_code in Dc.
  assert (Hws : skip_ws (String c r) = String c r).
  { simpl. unfold is_space_ascii.
    destruct (Z.eqb_spec (code c) 32); [lia|].
    destruct (Z.leb_spec 9 (code c)); destruct (Z.leb_spec (code c) 13); simpl; try lia; auto. }
  assert (Hsg : read_sign (String c r) = (false, false, String c r)).
  { simpl. destruct (Z.eqb_spec (code c) 45); [lia|]. destruct (Z.eqb_spec (code c) 43); [lia|].
    reflexivity. }
  unfold precise_xstrtod. rewrite Hws, Hsg.
  destruct (xs_int 0 0 0 (String c r)) as [[[nd num] ex] rest] eqn:Hx.
  destruct (xs_int_digits (String c r) 0 0 0 0 nd num ex rest D ltac:(lia) ltac:(lia)
              ltac:(lia) ltac:(lia) ltac:(lia) Hx) as (-> & H2 & H3 & H4 & H5 & H6 & H7).
  cbn [String.length] in H3.
  destruct (Z.eqb_spec nd 0); [lia|].
  destruct (308 <? ex); [left; reflexivity|].
  destruct (xs_overflows num ex); [left; reflexivity|].
  right. exists num, ex. split; [exact H6|reflexivity].
Qed.

Lemma xs_int_bounds d : forall nd num ex A nd' num' ex' rest,
  all_digits d = true -> 0 <= nd <= 17 -> 0 <= ex -> (0 < ex -> nd = 17) ->
  num * 10 ^ ex <= A < (num + 1) * 10 ^ ex ->
  xs_int nd num ex d = (nd', num', ex', rest) ->
  num' * 10 ^ ex' <= digits_value_acc A d < (num' + 1) * 10 ^ ex'.
Proof.
  induction d as [|c r IH]; intros nd num ex A nd' num' ex' rest D Hnd Hex Hsat HA E.
  - simpl in *; inversion E; subst. exact HA.
  - cbn [digits_value_acc all_digits xs_int] in *.
    rewrite andb_true_iff in D; destruct D as [D R]. rewrite D in E.
    pose proof (is_digit_code c D) as Dc. unfold digit_val in *.
    unfold max_digits in E. destruct (Z.ltb_spec nd 17).
    + assert (ex = 0) by (destruct (Z.ltb_spec 0 ex); [specialize (Hsat ltac:(lia)); lia|lia]).
      subst ex. rewrite Z.pow_0_r in HA.
      refine (IH (nd + 1) (num * 10 + (code c - 48)) 0 (A * 10 + (code c - 48))
                 nd' num' ex' rest R _ _ _ _ E); try lia.
      all: rewrite Z.pow_0_r; lia.
    + assert (nd = 17) by lia. subst nd.
      refine (IH 17 num (ex + 1) (A * 10 + (code c - 48)) nd' num' ex' rest R _ _ _ _ E); try lia.
      all: rewrite Z.pow_add_r, Z.pow_1_r by lia; nia.
Qed.

Lemma precise_xstrtod_digits_bounds d :
  all_digits d = true -> d <> EmptyString ->
  precise_xstrtod d = XsError \/
  exists num ex, precise_xstrtod d = XsNum false num ex true EmptyString /\
    0 <= num /\ 0 <= ex /\ num * 10 ^ ex <= digits_value d < (num + 1) * 10 ^ ex.
Proof.
  intros D Hne. destruct d as [|c r]; [congruence|].
  pose proof D as D'. simpl in D'. rewrite andb_true_iff in D'. destruct D' as [Dc _].
  apply is_digit_code in Dc.
  assert (Hws : skip_ws (String c r) = String c r).
  { simpl. unfold is_space_ascii.
    destruct (Z.eqb_spec (code c) 32); [lia|].
    destruct (Z.leb_spec 9 (code c)); destruct (Z.leb_spec (code c) 13); simpl; try lia; auto. }
  assert (Hsg : read_sign (String c r) = (false, false, String c r)).
  { simpl. destruct (Z.eqb_spec (code c) 45); [lia|]. destruct (Z.eqb_spec (code c) 43); [lia|].
    reflexivity. }
  unfold precise_xstrtod. rewrite Hws, Hsg.
  destruct (xs_int 0 0 0 (String c r)) as [[[nd num] ex] rest] eqn:Hx.
  destruct (xs_int_digits (String c r) 0 0 0 0 nd num ex rest D ltac:(lia) ltac:(lia)
              ltac:(lia) ltac:(lia) ltac:(lia) Hx) as (-> & H2 & H3 & H4 & H5 & H6 & H7).
  pose proof (xs_int_bounds (String c r) 0 0 0 0 nd num ex EmptyString D ltac:(lia) ltac:(lia)
                ltac:(lia) ltac:(rewrite Z.pow_0_r; lia) Hx) as HB.
  cbn [String.length] in H3.
  destruct (Z.eqb_spec nd 0); [lia|].
  destruct (308 <? ex); [left; reflexivity|].
  destruct (xs_overflows num ex); [left; reflexivity|].
  right. exists num, ex. split; [reflexivity|]. split; [exact H6|]. split; [exact H7|]. exact HB.
Qed.

(** The coercing parse of a digit string: missing when the C parser
    reports a range error; otherwise the integer, or beyond [UINT64_MAX]
    the float read from its leading digits. *)
Lemma convert_digits d :
  all_digits d = true -> d <> EmptyString ->
  (precise_xstrtod d = XsError /\ convert_numeric_str ECoerce d = Ok VNA) \/
  exists num ex, precise_xstrtod d = XsNum false num ex true EmptyString /\
    0 <= num /\ 0 <= ex /\ num * 10 ^ ex <= digits_value d < (num + 1) * 10 ^ ex /\
    convert_numeric_str ECoerce d =
      Ok (if UINT64_MAX <? digits_value d then VFloat num ex else VInt (digits_value d)).
Proof.
  intros D Hne. unfold convert_numeric_str.
  destruct (String.eqb_spec d ""); [congruence|].
  unfold floatify. rewrite (cstr_digits d D).
  destruct (precise_xstrtod_digits_bounds d D Hne) as [E|(num & ex & E & Hn & He & HB)];
    rewrite E.
  - left. split; [reflexivity|]. rewrite (str_ascii_lower_digits d D).
    repeat match goal with
           | |- context [String.eqb d ?x] =>
               destruct (String.eqb_spec d x) as [->|]; [vm_compute in D; discriminate|]
           end. reflexivity.
  - right. exists num, ex. split; [reflexivity|]. do 3 (split; [assumption|]).
    unfold py_int. rewrite (cstr_digits d D), String.eqb_refl, (keep_digits_id d D).
    pose proof (digits_value_acc_nonneg d 0 D ltac:(lia)) as Hnn. fold (digits_value d) in Hnn.
    unfold INT64_MIN. destruct (Z.ltb_spec (digits_value d) (- 2 ^ 63)); [lia|].
    simpl. destruct (UINT64_MAX <? digits_value d); reflexivity.
Qed.

(** ** Parser steps keep a character they cannot consume *)

Lemma hb_cons c r :
  numeric_char c = true -> has_non_numeric (String c r) = has_non_numeric r.
Proof. intros H; simpl; rewrite H; reflexivity. Qed.

Lemma skip_ws_hb s : has_non_numeric s = true -> has_non_numeric (skip_ws s) = true.
Proof.
  induction s as [|c r IH]; simpl; [discriminate|].
  destruct (is_space_ascii c) eqn:E; [|simpl; auto].
  unfold numeric_char; rewrite E, orb_true_r; simpl. exact IH.
Qed.

Lemma skip_digits_hb s : has_non_numeric s = true -> has_non_numeric (skip_digits s) = true.
Proof.
  induction s as [|c r IH]; simpl; [discriminate|].
  destruct (is_digit c) eqn:E; [|simpl; auto].
  unfold numeric_char; rewrite E; simpl. exact IH.
Qed.

Lemma read_sign_hb s neg b t :
  read_sign s = (neg, b, t) -> has_non_numeric s = true -> has_non_numeric t = true.
Proof.
  destruct s as [|c r]; simpl; [congruence|].
  destruct (Z.eqb (code c) 45) eqn:E1; [|destruct (Z.eqb (code c) 43) eqn:E2].
  - intros [= _ _ <-]. unfold numeric_char; rewrite E1, !orb_true_r; simpl; auto.
  - intros [= _ _ <-]. unfold numeric_char; rewrite E2, !orb_true_r; simpl; auto.
  - intros [= _ _ <-]. auto.
Qed.

Lemma xs_int_hb s : forall nd num ex a b e t,
  xs_int nd num ex s = (a, b, e, t) -> has_non_numeric s = true -> has_non_numeric t = true.
Proof.
  induction s as [|c r IH]; intros nd num ex a b e t; simpl; [congruence|].
  destruct (is_digit c) eqn:E.
  - unfold numeric_char; rewrite E; simpl.
    destruct (Z.ltb nd max_digits); apply IH.
  - intros [= _ _ _ <-]; auto.
Qed.

Lemma xs_frac_hb s : forall nd num ndec a b e t,
  xs_frac nd num ndec s = (a, b, e, t) -> has_non_numeric s = true -> has_non_numeric t = true.
Proof.
  induction s as [|c r IH]; intros nd num ndec a b e t; simpl; [congruence|].
  destruct (Z.ltb nd max_digits && is_digit c) eqn:E.
  - apply andb_true_iff in E; destruct E as [_ E].
    unfold numeric_char; rewrite E; simpl. apply IH.
  - intros [= _ _ _ <-]; auto.
Qed.

Lemma xs_expdigits_hb s : forall nd n a b t,
  xs_expdigits nd n s = (a, b, t) -> has_non_numeric s = true -> has_non_numeric t = true.
Proof.
  induction s as [|c r IH]; intros nd n a b t; simpl; [congruence|].
  destruct (Z.ltb nd max_digits && is_digit c) eqn:E.
  - apply andb_true_iff in E; destruct E as [_ E].
    unfold numeric_char; rewrite E; simpl. apply IH.
  - intros [= _ _ <-]; auto.
Qed.

Lemma precise_xstrtod_hb d neg m e mi rest :
  precise_xstrtod d = XsNum neg m e mi rest ->
  has_non_numeric d = true -> has_non_numeric rest = true.
Proof.
  intros H Hb. unfold precise_xstrtod in H.
  pose proof (skip_ws_hb d Hb) as H0.
  destruct (read_sign (skip_ws d)) as [[neg0 sg] p1] eqn:E1.
  pose proof (read_sign_hb _ _ _ _ E1 H0) as H1.
  destruct (xs_int 0 0 0 p1) as [[[nd num] ex] p2] eqn:E2.
  pose proof (xs_int_hb _ _ _ _ _ _ _ _ E2 H1) as H2. clear E1 E2 H0 H1.
  assert (K : exists mi1 nd1 num1 ex1 p3,
             has_non_numeric p3 = true /\
             match p2 with
             | String c r =>
                 if code c =? 46 then
                   let '(nd', num', ndec, p') := xs_frac nd num 0 r in
                   (false, nd', num', ex - ndec,
                    if max_digits <=? nd' then skip_digits p' else p')
                 else (true, nd, num, ex, p2)
             | EmptyString => (true, nd, num, ex, p2)
             end = (mi1, nd1, num1, ex1, p3)).
  { destruct p2 as [|c r]; [eauto 7|].
    destruct (Z.eqb (code c) 46) eqn:E3; [|eauto 7].
    destruct (xs_frac nd num 0 r) as [[[nd' num'] ndec] p'] eqn:E4.
    assert (Hr : has_non_numeric r = true).
    { rewrite <- (hb_cons c r); [exact H2|]. unfold numeric_char; rewrite E3, !orb_true_r; simpl; reflexivity. }
    pose proof (xs_frac_hb _ _ _ _ _ _ _ _ E4 Hr) as H4.
    destruct (max_digits <=? nd'); do 5 eexists; (split; [|reflexivity]); auto using skip_digits_hb. }
  destruct K as (mi1 & nd1 & num1 & ex1 & p3 & H3 & K). rewrite K in H. clear K H2.
  destruct (nd1 =? 0); [discriminate|].
  assert (K : exists mi2 ex2 p4,
             has_non_numeric p4 = true /\
             match p3 with
             | String c r =>
                 if code (ascii_lower c) =? 101 then
                   let '(eneg, signed, q) := read_sign r in
                   let '(end_nd, n, q') := xs_expdigits 0 0 q in
                   (false, (if eneg then ex1 - n else ex1 + n),
                    if end_nd =? 0 then (if signed then r else p3) else q')
                 else (mi1, ex1, p3)
             | EmptyString => (mi1, ex1, p3)
             end = (mi2, ex2, p4)).
  { destruct p3 as [|c r]; [eauto 7|].
    destruct (Z.eqb (code (ascii_lower c)) 101) eqn:E3; [|eauto 7].
    assert (Hr : has_non_numeric r = true).
    { rewrite <- (hb_cons c r); [exact H3|]. unfold numeric_char; rewrite E3, !orb_true_r; reflexivity. }
    destruct (read_sign r) as [[eneg signed] q] eqn:E4.
    pose proof (read_sign_hb _ _ _ _ E4 Hr) as Hq.
    destruct (xs_expdigits 0 0 q) as [[end_nd n] q'] eqn:E5.
    pose proof (xs_expdigits_hb _ _ _ _ _ _ E5 Hq) as Hq'.
    destruct (end_nd =? 0), signed; do 3 eexists; (split; [|reflexivity]); auto. }
  destruct K as (mi2 & ex2 & p4 & H4 & K). rewrite K in H. clear K.
  destruct (308 <? ex2); [discriminate|].
  destruct (xs_overflows num1 ex2); [discriminate|].
  injection H as _ _ _ _ <-. auto using skip_ws_hb.
Qed.

Lemma to_numeric_non_numeric s :
  has_non_numeric (cstr s) = true -> inf_spelling (cstr s) = false ->
  to_numeric ECoerce (VStr s) = Ok VNA.
Proof.
  intros Hb Hi. simpl. unfold convert_numeric_str.
  destruct (String.eqb s "") eqn:Es; [reflexivity|].
  unfold inf_spelling in Hi. simpl in Hi.
  repeat match type of Hi with
         | _ || _ = false => apply orb_false_elim in Hi; destruct Hi as [? Hi]
         end.
  assert (Hf : floatify s = FParseError).
  { unfold floatify.
    destruct (precise_xstrtod (cstr s)) as [|neg m e mi [|c r]] eqn:Ex;
      [| pose proof (precise_xstrtod_hb _ _ _ _ _ _ Ex Hb); discriminate |];
      repeat match goal with H : (_ =? _)%string = false |- _ => rewrite H; clear H end;
      reflexivity. }
  rewrite Hf; reflexivity.
Qed.

(** ** The output of [keep_decimal] *)

Lemma keep_decimal_doh s : digits_or_high (keep_decimal s) = true.
Proof.
  revert s. fix IH 1. intros [|a r]; [reflexivity|]. cbn [keep_decimal].
  destruct (Z.ltb_spec (code a) 128) as [A1|A1].
  - destruct (is_digit a) eqn:D; [cbn [digits_or_high]; rewrite D, IH; reflexivity|apply IH].
  - assert (Ha : (is_digit a || (128 <=? code a)) = true)
      by (apply orb_true_iff; right; apply Z.leb_le; lia).
    assert (Hc : forall b, is_cont b = true -> (is_digit b || (128 <=? code b)) = true).
    { intros b Hb. unfold is_cont in Hb. apply andb_true_iff in Hb as [Hb _].
      rewrite Hb, orb_true_r; reflexivity. }
    destruct (code a <? 224).
    + destruct r as [|b r1]; [reflexivity|].
      destruct (is_cont b) eqn:B; [|apply IH]. simpl andb.
      destruct (is_decimal_cp (cp2 a b)); [|apply IH].
      cbn [digits_or_high]. rewrite Ha, (Hc b B), IH. reflexivity.
    + destruct (code a <? 240).
      * destruct r as [|b [|c r2]]; try reflexivity.
        destruct (is_cont b) eqn:B; [|apply IH]. destruct (is_cont c) eqn:C; [|apply IH].
        simpl andb. destruct (is_decimal_cp (cp3 a b c)); [|apply IH].
        cbn [digits_or_high]. rewrite Ha, (Hc b B), (Hc c C), IH. reflexivity.
      * destruct r as [|b [|c [|e r3]]]; try reflexivity.
        destruct (is_cont b) eqn:B; [|apply IH]. destruct (is_cont c) eqn:C; [|apply IH].
        destruct (is_cont e) eqn:E; [|apply IH].
        simpl andb. destruct (is_decimal_cp (cp4 a b c e)); [|apply IH].
        cbn [digits_or_high]. rewrite Ha, (Hc b B), (Hc c C), (Hc e E), IH. reflexivity.
Qed.

Lemma doh_high x : digits_or_high x = true -> all_digits x = false -> has_high x = true.
Proof.
  induction x as [|c r IH]; simpl; [discriminate|].
  rewrite andb_true_iff. intros [H R].
  destruct (is_digit c) eqn:D; simpl.
  - intros A. rewrite IH; auto. apply orb_true_r.
  - intros _. simpl in H. rewrite H. reflexivity.
Qed.

Lemma high_non_numeric x : has_high x = true -> has_non_numeric x = true.
Proof.
  induction x as [|c r IH]; simpl; [discriminate|].
  destruct (Z.leb_spec 128 (code c)) as [C|C]; simpl; intros H.
  - replace (numeric_char c) with false; [reflexivity|]. symmetry.
    assert (L : ascii_lower c = c).
    { unfold ascii_lower. destruct (Z.leb_spec (code c) 90); [lia|].
      rewrite andb_false_r. reflexivity. }
    unfold numeric_char, is_digit, is_space_ascii. rewrite L.
    repeat match goal with
           | |- context [?a <=? ?b] => destruct (Z.leb_spec a b); try lia
           | |- context [?a =? ?b] => destruct (Z.eqb_spec a b); try lia
           end; reflexivity.
  - rewrite IH; [apply orb_true_r|exact H].
Qed.

Lemma doh_cstr x : digits_or_high x = true -> cstr x = x.
Proof.
  induction x as [|c r IH]; simpl; [reflexivity|].
  rewrite andb_true_iff, orb_true_iff. intros [H R].
  assert (code c <> 0).
  { destruct H as [H|H]; [apply is_digit_code in H|apply Z.leb_le in H]; lia. }
  destruct (Z.eqb_spec (code c) 0); [contradiction|]. rewrite IH; auto.
Qed.

Lemma high_lower x : has_high x = true -> has_high (str_ascii_lower x) = true.
Proof.
  induction x as [|c r IH]; simpl; [discriminate|].
  destruct (Z.leb_spec 128 (code c)) as [C|C]; simpl; intros H.
  - unfold ascii_lower. destruct (Z.leb_spec 65 (code c)), (Z.leb_spec (code c) 90); simpl;
      try lia; rewrite C; reflexivity.
  - rewrite IH; [apply orb_true_r|exact H].
Qed.

Lemma high_inf x : has_high x = true -> inf_spelling x = false.
Proof.
  intros H. apply high_lower in H. unfold inf_spelling.
  destruct (existsb _ _) eqn:E; [|reflexivity].
  apply existsb_exists in E as [y [Hy Ey]]. apply String.eqb_eq in Ey. rewrite Ey in H.
  simpl in Hy. repeat destruct Hy as [<-|Hy]; try discriminate. contradiction.
Qed.

(** A cell whose decimal digits are not all ASCII comes back missing: the C
    parser stops at the first byte of a non-ASCII digit. *)
Lemma to_number_non_ascii_digit s :
  all_digits (keep_decimal s) = false -> to_number (CStr s) = Ok VNA.
Proof.
  intros A. cbn [to_number].
  pose proof (keep_decimal_doh s) as D. pose proof (doh_high _ D A) as H.
  apply to_numeric_non_numeric; rewrite (doh_cstr _ D).
  - apply high_non_numeric, H.
  - apply high_inf, H.
Qed.

(** ** Claim C1: [to_number] *)

(** C1 (amended).  [to_number] maps the missing marker to missing.  A
    string whose decimal digits (every other character removed) are all
    ASCII and form a digit string of at most 325 characters denoting at most
    2^64-1 goes to the integer those digits denote, read in order; a larger
    digit string goes to missing or to a float whose mantissa and exponent
    bracket it, not to the integer.  A string with a non-ASCII decimal digit,
    or without digit, goes to missing; and [to_number] never raises. *)
Theorem to_number_spec :
  to_number CNA = Ok VNA /\
  (forall s, all_digits (keep_decimal s) = true -> keep_decimal s <> EmptyString ->
             (String.length (keep_decimal s) <= 325)%nat ->
             digits_value (keep_decimal s) <= UINT64_MAX ->
             to_number (CStr s) = Ok (VInt (digits_value (keep_decimal s)))) /\
  (forall s, all_digits (keep_decimal s) = true ->
             UINT64_MAX < digits_value (keep_decimal s) ->
             to_number (CStr s) = Ok VNA \/
             exists m e, to_number (CStr s) = Ok (VFloat m e) /\ 0 <= m /\ 0 <= e /\
               m * 10 ^ e <= digits_value (keep_decimal s) < (m + 1) * 10 ^ e) /\
  (forall s, all_digits (keep_decimal s) = false -> to_number (CStr s) = Ok VNA) /\
  (forall s, keep_decimal s = EmptyString -> to_number (CStr s) = Ok VNA) /\
  (forall c, exists v, to_number c = Ok v).
Proof.
  split; [reflexivity|]. split; [|split; [|split; [|split]]].
  - intros s D Hne Hlen Hval. cbn [to_number to_numeric].
    remember (keep_decimal s) as d eqn:Ed.
    destruct (convert_digits d D Hne) as [[E _]|(num & ex & _ & _ & _ & _ & E)].
    + destruct (precise_xstrtod_digits d D Hne Hlen Hval) as [num [ex Hp]]. congruence.
    + rewrite E. destruct (Z.ltb_spec UINT64_MAX (digits_value d)); [lia|]. reflexivity.
  - intros s D Hbig. cbn [to_number to_numeric].
    remember (keep_decimal s) as d eqn:Ed.
    assert (Hne : d <> EmptyString) by (intros ->; vm_compute in Hbig; discriminate).
    destruct (convert_digits d D Hne) as [[_ E]|(num & ex & _ & Hn & He & HB & E)].
    + left. exact E.
    + right. exists num, ex. rewrite E. destruct (Z.ltb_spec UINT64_MAX (digits_value d)); [|lia].
      auto.
  - apply to_number_non_ascii_digit.
  - intros s E. simpl. rewrite E. reflexivity.
  - intros c. destruct (to_number_total c) as [v [Hv _]]; eauto.
Qed.

(** C1 counterexample.  The digits of "18446744073709551617" denote
    2^64 + 1, beyond [UINT64_MAX]: pandas returns a float64, and an odd
    integer above 2^53 is no float64, so the result is not that integer.
    The Arabic-Indic digit one (U+0661) is a decimal digit that
    [re.sub] keeps, and the C parser stops at it: "1" followed by it
    comes back missing, not 11 nor 1. *)
Lemma to_number_overflow_cex :
  to_number (CStr "18446744073709551617") = Ok (VFloat 18446744073709551 3) /\
  to_number (CStr "18446744073709551617")
    <> Ok (VInt (digits_value (keep_decimal "18446744073709551617"))) /\
  digits_value (keep_decimal "18446744073709551617") = 2 ^ 64 + 1 /\
  Z.odd (digits_value (keep_decimal "18446744073709551617")) = true /\
  keep_decimal (String "1" (String (ascii_of_nat 217) (String (ascii_of_nat 161) EmptyString)))
    = String "1" (String (ascii_of_nat 217) (String (ascii_of_nat 161) EmptyString)) /\
  to_number (CStr (String "1" (String (ascii_of_nat 217) (String (ascii_of_nat 161) EmptyString))))
    = Ok VNA.
Proof. vm_compute. repeat split; congruence. Qed.

Lemma to_number_spec_witness :
  all_digits (keep_decimal "$2,847,000,000") = true /\
  keep_decimal "$2,847,000,000" <> EmptyString /\
  to_number (CStr "$2,847,000,000") = Ok (VInt 2847000000).
Proof.
  split; [vm_compute; reflexivity|]. split; [vm_compute; congruence|].
  apply (proj1 (proj2 to_number_spec) "$2,847,000,000");
    vm_compute; first [reflexivity | congruence | lia].
Defined.

(** ** The table locator *)

Lemma first_match_skip pre l :
  forallb (fun u => negb (table_matches u)) pre = true ->
  first_match (pre ++ l) = first_match l.
Proof.
  induction pre as [|u r IH]; simpl; [reflexivity|].
  rewrite andb_true_iff; intros [Hu Hr]. apply negb_true_iff in Hu. rewrite Hu; auto.
Qed.

Lemma first_match_none l :
  forallb (fun u => negb (table_matches u)) l = true -> first_match l = None.
Proof. intros H. rewrite <- (app_nil_r l), (first_match_skip l []); auto. Qed.

(** Claim C2.  When the wikitables of the document are [pre ++ t :: post],
    no table of [pre] passes the caption heuristic and [t] does,
    [find_target_table] returns [t] (as [str(t)]), whatever [post] holds:
    the first match in document order. *)
Theorem find_target_table_first_match soup pre t post :
  select_wikitables soup = pre ++ t :: post ->
  forallb (fun u => negb (table_matches u)) pre = true ->
  table_matches t = true ->
  find_target_table soup = Some (str_node t).
Proof.
  intros Hs Hpre Ht. unfold find_target_table. rewrite Hs, first_match_skip by exact Hpre.
  simpl. rewrite Ht. reflexivity.
Qed.

(** Claim C3.  With no caption match, [find_target_table] falls back on the
    first wikitable; with no wikitable at all it finds nothing and [main]
    raises before persisting, drawing or printing anything (a
    [RuntimeError] once the HTTP status passed [raise_for_status]). *)
Theorem find_target_table_fallback_and_fatal :
  (forall soup t rest,
      select_wikitables soup = t :: rest ->
      forallb (fun u => negb (table_matches u)) (t :: rest) = true ->
      find_target_table soup = Some (str_node t)) /\
  (forall soup, select_wikitables soup = [] ->
      find_target_table soup = None /\
      forall read_html status st, exists e,
        main read_html (Response status soup) st = (Raise e, st) /\
        ((status <? 400) || (600 <=? status) = true ->
         e = RuntimeError "No encontré ninguna tabla wikitable en la página objetivo.")).
Proof.
  split.
  - intros soup t rest Hs Hn. unfold find_target_table.
    rewrite Hs, (first_match_none (t :: rest) Hn). reflexivity.
  - intros soup Hs.
    assert (Hf : find_target_table soup = None)
      by (unfold find_target_table; rewrite Hs; reflexivity).
    split; [exact Hf|]. intros read_html status st. unfold main, raise_for_status.
    destruct ((400 <=? status) && (status <? 600)) eqn:Hst.
    + exists (HTTPError status); split; [reflexivity|].
      rewrite andb_true_iff, Z.leb_le, Z.ltb_lt in Hst.
      rewrite orb_true_iff, Z.ltb_lt, Z.leb_le. lia.
    + rewrite Hf. simpl. eexists; split; [reflexivity|auto].
Qed.

(** ** [pick] is a priority search *)

Lemma find_split {A} (f : A -> bool) l x :
  find f l = Some x <->
  exists l1 l2, l = l1 ++ x :: l2 /\ (forall y, In y l1 -> f y = false) /\ f x = true.
Proof.
  split.
  - induction l as [|a r IH]; simpl; intros H; [discriminate|].
    destruct (f a) eqn:Fa.
    + inversion H; subst. exists [], r; simpl; intuition.
    + destruct (IH H) as (l1 & l2 & -> & H1 & H2).
      exists (a :: l1), l2; simpl.
      split; [reflexivity|split; [intros y [<-|Hy]; auto|exact H2]].
  - intros (l1 & l2 & -> & H1 & H2). induction l1 as [|a r IH]; simpl.
    + rewrite H2; reflexivity.
    + rewrite (H1 a (or_introl eq_refl)). apply IH; intros; apply H1; simpl; auto.
Qed.

Lemma find_none_iff {A} (f : A -> bool) l :
  find f l = None <-> (forall y, In y l -> f y = false).
Proof.
  induction l as [|a r IH]; simpl; [split; auto; contradiction|].
  destruct (f a) eqn:Fa; split.
  - discriminate.
  - intros H; rewrite (H a (or_introl eq_refl)) in Fa; discriminate.
  - intros H y [<-|Hy]; auto. apply IH; auto.
  - intros H; apply IH; auto.
Qed.

Lemma first_some_split {A B} (g : A -> option B) l b :
  first_some (map g l) = Some b <->
  exists pre a post, l = pre ++ a :: post /\ (forall q, In q pre -> g q = None) /\ g a = Some b.
Proof.
  split.
  - induction l as [|a r IH]; simpl; intros H; [discriminate|].
    destruct (g a) eqn:Ga.
    + inversion H; subst. exists [], a, r; simpl; intuition.
    + destruct (IH H) as (pre & a' & post & -> & H1 & H2).
      exists (a :: pre), a', post; simpl.
      split; [reflexivity|split; [intros q [<-|Hq]; auto|exact H2]].
  - intros (pre & a & post & -> & H1 & H2). induction pre as [|q r IH]; simpl.
    + rewrite H2; reflexivity.
    + rewrite (H1 q (or_introl eq_refl)). apply IH; intros; apply H1; simpl; auto.
Qed.

Lemma first_some_none {A B} (g : A -> option B) l :
  first_some (map g l) = None <-> (forall q, In q l -> g q = None).
Proof.
  induction l as [|a r IH]; simpl; [split; auto; contradiction|].
  destruct (g a) eqn:Ga; split.
  - discriminate.
  - intros H; rewrite (H a (or_introl eq_refl)) in Ga; discriminate.
  - intros H q [<-|Hq]; auto. apply IH; auto.
  - intros H; apply IH; auto.
Qed.

(** Claim C4.  [pick columns col_opts] is a priority search: it returns
    [c] exactly when, for some split [col_opts = pre ++ p :: post], no
    pattern of [pre] is contained in any lower-cased label, and [c] is the
    first label (in column order) whose lower-cased form contains [p]; it
    returns nothing exactly when no pattern is contained in any label. *)
Theorem pick_priority_search columns col_opts c :
  (pick columns col_opts = Some c <->
   exists pre p post l1 l2,
     col_opts = pre ++ p :: post /\ columns = l1 ++ c :: l2 /\
     (forall q c', In q pre -> In c' columns -> contains q (py_lower c') = false) /\
     (forall c', In c' l1 -> contains p (py_lower c') = false) /\
     contains p (py_lower c) = true) /\
  (pick columns col_opts = None <->
   forall q c', In q col_opts -> In c' columns -> contains q (py_lower c') = false).
Proof.
  unfold pick. split.
  - rewrite first_some_split. split.
    + intros (pre & p & post & -> & Hpre & Hp). apply find_split in Hp.
      destruct Hp as (l1 & l2 & -> & H1 & H2).
      exists pre, p, post, l1, l2. repeat split; auto.
      intros q c' Hq Hc'. exact (proj1 (find_none_iff _ _) (Hpre q Hq) c' Hc').
    + intros (pre & p & post & l1 & l2 & -> & Hc & Hpre & H1 & H2).
      exists pre, p, post. repeat split; auto.
      * intros q Hq. apply find_none_iff. intros; apply Hpre; auto.
      * apply find_split. exists l1, l2. auto.
  - rewrite first_some_none. split.
    + intros H q c' Hq Hc'. exact (proj1 (find_none_iff _ _) (H q Hq) c' Hc').
    + intros H q Hq. apply find_none_iff. intros; apply H; auto.
Qed.

(** ** Column normalisation, column by column *)

Lemma mapM_Forall2_ex {A B} (f : A -> exc B) (R : A -> B -> Prop) l :
  (forall x, In x l -> exists y, f x = Ok y /\ R x y) ->
  exists l', mapM f l = Ok l' /\ Forall2 R l l'.
Proof.
  induction l as [|x r IH]; simpl; intros H; [eauto|].
  destruct (H x (or_introl eq_refl)) as [y [Hy Ry]]; rewrite Hy; simpl.
  destruct IH as [l' [Hl' Fl']]; [intros; apply H; auto|].
  rewrite Hl'; simpl; eauto.
Qed.

Lemma convert_money_spec df :
  NoDup (map fst df) ->
  exists df1, convert_money df = Ok df1 /\
    Forall2 (fun (x : string * list cell) (y : string * list val) =>
               fst y = fst x /\
               (if is_money (fst x) then mapM to_number (snd x) = Ok (snd y)
                else snd y = map embed (snd x))) df df1.
Proof.
  intros Hnd. unfold convert_money.
  replace (existsb _ _) with false.
  2:{ symmetry. apply not_true_iff_false; intros H; apply existsb_exists in H.
      destruct H as [x [_ Hc]]. rewrite count_label_NoDup in Hc by exact Hnd. discriminate. }
  apply mapM_Forall2_ex. intros [c cs] Hin.
  assert (Hc : In c (map fst df)) by (apply in_map_iff; exists (c, cs); auto).
  rewrite (existsb_eqb_filter is_money c _ Hc). simpl.
  destruct (is_money c).
  - destruct (mapM_total to_number cs) as [vs Hvs].
    { intros x _. destruct (to_number_total x) as [v [Hv _]]; eauto. }
    rewrite Hvs; simpl; eauto.
  - eauto.
Qed.

Lemma convert_ordinal_spec r df1 :
  NoDup (map fst df1) ->
  exists df2, convert_ordinal r df1 = Ok df2 /\
    Forall2 (fun (x y : string * list val) =>
               fst y = fst x /\
               exists vs1,
                 (if is_rank (fst x) then to_numeric_series (snd x) = Ok vs1 else vs1 = snd x) /\
                 (if is_year_col r (fst x) then to_numeric_series vs1 = Ok (snd y)
                  else snd y = vs1)) df1 df2.
Proof.
  intros Hnd. unfold convert_ordinal.
  replace (existsb _ _) with false.
  2:{ symmetry. apply not_true_iff_false; intros H; apply existsb_exists in H.
      destruct H as [x [_ Hc]]. rewrite count_label_NoDup in Hc by exact Hnd.
      rewrite andb_false_r in Hc. discriminate. }
  apply mapM_Forall2_ex. intros [name vs] _. simpl.
  destruct (is_rank name) eqn:Hr.
  - destruct (to_numeric_series_total vs) as [vs1 Hvs1]. rewrite Hvs1; simpl.
    destruct (is_year_col r name).
    + destruct (to_numeric_series_total vs1) as [vs2 Hvs2]. rewrite Hvs2; simpl.
      eexists; split; [reflexivity|]. simpl; split; [reflexivity|eauto].
    + simpl. eexists; split; [reflexivity|]. simpl; split; [reflexivity|eauto].
  - simpl. destruct (is_year_col r name).
    + destruct (to_numeric_series_total vs) as [vs2 Hvs2]. rewrite Hvs2; simpl.
      eexists; split; [reflexivity|]. simpl; split; [reflexivity|eauto].
    + simpl. eexists; split; [reflexivity|]. simpl; split; [reflexivity|eauto].
Qed.

(** Every column of a raw table with distinct (stripped) labels comes out
    of [normalize] at the same position under the same label, its cells
    converted by [to_number] when the label is money-like, then by
    [pd.to_numeric] when it is a rank label and again when it is the
    release-year column. *)
Lemma normalize_column raw i l cs :
  NoDup (map fst (strip_labels raw)) ->
  nth_error raw i = Some (l, cs) ->
  let r := pick_roles (map fst (strip_labels raw)) in
  exists df vs vs0 vs1,
    normalize raw = Ok (r, df) /\
    nth_error df i = Some (py_strip l, vs) /\
    (if is_money (py_strip l) then mapM to_number cs = Ok vs0 else vs0 = map embed cs) /\
    (if is_rank (py_strip l) then to_numeric_series vs0 = Ok vs1 else vs1 = vs0) /\
    (if is_year_col r (py_strip l) then to_numeric_series vs1 = Ok vs else vs = vs1).
Proof.
  intros Hnd Hi r.
  destruct (convert_money_spec _ Hnd) as [df1 [H1 F1]].
  assert (Hnd1 : NoDup (map fst df1)).
  { replace (map fst df1) with (map fst (strip_labels raw)); [exact Hnd|].
    symmetry. eapply Forall2_map_fst. eapply Forall2_impl; [|exact F1]. simpl.
    intros x y [E _]; split; [exact E|exact I]. }
  destruct (convert_ordinal_spec r _ Hnd1) as [df2 [H2 F2]].
  assert (Hs : nth_error (strip_labels raw) i = Some (py_strip l, cs)).
  { unfold strip_labels. rewrite nth_error_map, Hi. reflexivity. }
  destruct (Forall2_nth_error _ _ _ _ _ F1 Hs) as [[l1 vs0] [Hi1 [E1 M1]]].
  simpl in E1, M1; subst l1.
  destruct (Forall2_nth_error _ _ _ _ _ F2 Hi1) as [[l2 vs] [Hi2 [E2 [vs1 [R2 Y2]]]]].
  simpl in E2, R2, Y2; subst l2.
  exists df2, vs, vs0, vs1. unfold normalize. fold r. rewrite H1; simpl. rewrite H2; simpl.
  repeat split; auto.
Qed.

Lemma pick_contains columns col_opts c :
  pick columns col_opts = Some c -> exists p, In p col_opts /\ contains p (py_lower c) = true.
Proof.
  unfold pick. rewrite first_some_split. intros (pre & p & post & -> & _ & Hp).
  apply find_split in Hp. destruct Hp as (l1 & l2 & _ & _ & Hc).
  exists p; split; [apply in_or_app; simpl; auto|exact Hc].
Qed.

Lemma is_year_col_some r name :
  is_year_col r name = true -> col_year r = Some name.
Proof.
  unfold is_year_col. destruct (col_year r) as [y|]; [|rewrite andb_false_r; discriminate].
  rewrite andb_true_iff; intros [_ H]. apply String.eqb_eq in H. subst; reflexivity.
Qed.

(** Claim C5.  Every column whose label contains a money token has each of
    its cells converted by [to_number], whether or not it was picked for a
    role (the statement puts no condition on the roles). *)
Theorem money_like_columns_converted raw i l cs :
  NoDup (map fst (strip_labels raw)) ->
  nth_error raw i = Some (l, cs) ->
  is_money (py_strip l) = true ->
  exists r df vs,
    normalize raw = Ok (r, df) /\
    nth_error df i = Some (py_strip l, vs) /\
    mapM to_number cs = Ok vs.
Proof.
  intros Hnd Hi Hm.
  destruct (normalize_column raw i l cs Hnd Hi) as (df & vs & vs0 & vs1 & Hn & Hdf & H0 & H1 & H2).
  rewrite Hm in H0. pose proof (mapM_to_number_no_str _ _ H0) as N0.
  assert (E1 : vs1 = vs0).
  { destruct (is_rank (py_strip l)); [|exact H1].
    rewrite (to_numeric_series_no_str vs0 N0) in H1. congruence. }
  subst vs1.
  assert (E2 : vs = vs0).
  { destruct (is_year_col _ (py_strip l)); [|exact H2].
    rewrite (to_numeric_series_no_str vs0 N0) in H2. congruence. }
  subst vs. eauto 6.
Qed.

(** Claim C8.  A column whose stripped label contains no role pattern and
    is neither money-like nor a rank label comes out of [normalize] at its
    position with its cells untouched. *)
Theorem passthrough_column raw i l cs :
  NoDup (map fst (strip_labels raw)) ->
  nth_error raw i = Some (l, cs) ->
  (forall opts p, In opts role_opts -> In p opts -> contains p (py_lower (py_strip l)) = false) ->
  is_money (py_strip l) = false ->
  is_rank (py_strip l) = false ->
  exists r df, normalize raw = Ok (r, df) /\ nth_error df i = Some (py_strip l, map embed cs).
Proof.
  intros Hnd Hi Hno Hm Hr.
  destruct (normalize_column raw i l cs Hnd Hi) as (df & vs & vs0 & vs1 & Hn & Hdf & H0 & H1 & H2).
  rewrite Hm in H0. rewrite Hr in H1. subst vs1 vs0.
  destruct (is_year_col _ (py_strip l)) eqn:Hy.
  - exfalso. apply is_year_col_some in Hy. simpl in Hy.
    apply pick_contains in Hy. destruct Hy as [p [Hp Hc]].
    rewrite (Hno year_opts p) in Hc; [discriminate| |exact Hp]. simpl; tauto.
  - subst vs. eauto.
Qed.

(** ** The run of [main] *)

Lemma select_wikitables_wt n : Forall (fun t => is_wikitable t = true) (select_wikitables n).
Proof.
  revert n. fix IH 1. intros [s|tag cls kids]; cbn [select_wikitables]; [constructor|].
  apply Forall_app; split.
  - destruct (is_wikitable (Elem tag cls kids)) eqn:W; [constructor; [exact W|constructor]|constructor].
  - induction kids as [|k ks IHk]; cbn [flat_map]; [constructor|].
    apply Forall_app; split; [apply IH|exact IHk].
Qed.


Lemma first_match_in l h : first_match l = Some h -> exists t, In t l /\ h = str_node t.
Proof.
  induction l as [|t r IH]; simpl; [discriminate|].
  destruct (table_matches t); [intros [= <-]; eauto|].
  intros H; destruct (IH H) as [u [Hu ->]]; eauto.
Qed.


Lemma mapM_length {A B} (f : A -> exc B) l l' : mapM f l = Ok l' -> length l' = length l.
Proof. intros H; apply mapM_Forall2, Forall2_length in H; auto. Qed.

Lemma Forall2_map_eq {A B C} (R : A -> B -> Prop) (g : B -> C) (h : A -> C) l l' :
  (forall x y, R x y -> g y = h x) -> Forall2 R l l' -> map g l' = map h l.
Proof. intros Hg; induction 1; simpl; f_equal; auto. Qed.

Lemma normalize_lengths raw :
  NoDup (map fst (strip_labels raw)) ->
  exists df, normalize raw = Ok (pick_roles (map fst (strip_labels raw)), df) /\
    map (fun p => length (snd p)) df = map (fun p => length (snd p)) raw.
Proof.
  intros Hnd.
  destruct (convert_money_spec _ Hnd) as [df1 [H1 F1]].
  assert (Hnd1 : NoDup (map fst df1)).
  { replace (map fst df1) with (map fst (strip_labels raw)); [exact Hnd|].
    symmetry. eapply Forall2_map_fst. eapply Forall2_impl; [|exact F1]. simpl.
    intros x y [E _]; split; [exact E|exact I]. }
  destruct (convert_ordinal_spec (pick_roles (map fst (strip_labels raw))) _ Hnd1) as [df2 [H2 F2]].
  exists df2. split.
  - unfold normalize. rewrite H1; simpl. rewrite H2; reflexivity.
  - transitivity (map (fun p => length (snd p)) df1).
    + eapply Forall2_map_eq; [|exact F2]. simpl.
      intros [l vs] [l' ws] [_ [vs1 [A B]]]; simpl in *.
      destruct (is_rank l); destruct (is_year_col _ l); subst;
        repeat match goal with H : to_numeric_series _ = Ok _ |- _ => apply mapM_length in H end;
        congruence.
    + transitivity (map (fun p => length (snd p)) (strip_labels raw)).
      * eapply Forall2_map_eq; [|exact F1]. simpl.
        intros [l cs] [l' vs] [_ A]; simpl in *.
        destruct (is_money l); [apply mapM_length in A; exact A|subst; apply length_map].
      * unfold strip_labels. rewrite map_map. apply map_ext. intros [l cs]; reflexivity.
Qed.




Lemma extends_refl st : extends st st.
Proof. split; [reflexivity|split; [reflexivity|exists []; symmetry; apply app_nil_r]]. Qed.

Lemma extends_draw c st : extends st (draw c st).
Proof. split; [reflexivity|split; [reflexivity|exists [c]; reflexivity]]. Qed.

Lemma extends_trans a b c : extends a b -> extends b c -> extends a c.
Proof.
  intros (S1 & P1 & n1 & C1) (S2 & P2 & n2 & C2).
  split; [congruence|split; [congruence|exists (n1 ++ n2)]].
  rewrite C2, C1, app_assoc. reflexivity.
Qed.

Lemma chart_top_extends r df st st1 : chart_top r df st = Ok st1 -> extends st st1.
Proof.
  unfold chart_top. cbv zeta.
  destruct (truthy (col_world r) && truthy (col_movie r)); [|intros [= <-]; apply extends_refl].
  destruct (String.eqb _ _); [discriminate|].
  destruct (existsb _ _); [discriminate|].
  destruct (dropna _); [discriminate|]. intros [= <-]. apply extends_draw.
Qed.

Lemma chart_by_year_extends r df st st1 : chart_by_year r df st = Ok st1 -> extends st st1.
Proof.
  unfold chart_by_year. cbv zeta.
  destruct (truthy (col_world r) && truthy (col_movie r) && truthy (col_year r));
    [|intros [= <-]; apply extends_refl].
  destruct (String.eqb _ _); [discriminate|].
  destruct (existsb _ _); [discriminate|]. intros [= <-]. apply extends_draw.
Qed.

Lemma chart_comp_shape r df st :
  snd (chart_comp r df st) = st \/
  (snd (chart_comp r df st) =
     draw (DomesticForeign (dropna (rows_of df [label (col_movie r); label (col_domestic r);
                                                label (col_foreign r)]))) st /\
   truthy (col_domestic r) && truthy (col_foreign r) && truthy (col_movie r) = true).
Proof.
  unfold chart_comp. cbv zeta.
  destruct (truthy (col_domestic r) && truthy (col_foreign r) && truthy (col_movie r)) eqn:T;
    [|left; reflexivity].
  destruct (existsb _ _); [left; reflexivity|].
  destruct (negb _); [left; reflexivity|].
  destruct (dropna _); [left; reflexivity|]. right. split; reflexivity.
Qed.

Lemma chart_comp_extends r df st : extends st (snd (chart_comp r df st)).
Proof.
  destruct (chart_comp_shape r df st) as [->|[-> _]]; [apply extends_refl|apply extends_draw].
Qed.

Lemma plot_charts_extends r df st : extends st (snd (plot_charts r df st)).
Proof.
  unfold plot_charts.
  destruct (chart_top r df st) as [st1|e] eqn:E1; [|apply extends_refl].
  pose proof (chart_top_extends _ _ _ _ E1) as X1.
  destruct (chart_by_year r df st1) as [st2|e] eqn:E2; [|exact X1].
  pose proof (chart_by_year_extends _ _ _ _ E2) as X2.
  exact (extends_trans _ _ _ (extends_trans _ _ _ X1 X2) (chart_comp_extends r df st2)).
Qed.












Lemma to_sql_ok df st : sql_storable df = true -> to_sql df st = (Ok tt, persist df st).
Proof.
  unfold sql_storable, to_sql.
  destruct (first_some _); [discriminate|].
  destruct (create_error _); [discriminate|].
  destruct (existsb _ _); [discriminate|reflexivity].
Qed.

Lemma to_sql_fails df st :
  sql_storable df = false ->
  exists e, fst (to_sql df st) = Raise e /\
    charts (snd (to_sql df st)) = charts st /\ printed (snd (to_sql df st)) = printed st /\
    (store (snd (to_sql df st)) = store st \/ store (snd (to_sql df st)) = None \/
     store (snd (to_sql df st)) = Some (map (fun p => (fst p, [])) df)).
Proof.
  unfold sql_storable, to_sql.
  destruct (first_some _); [intros _; eexists; repeat split; left; reflexivity|].
  destruct (create_error _); [intros _; eexists; repeat split; right; left; reflexivity|].
  destruct (existsb _ _); [|discriminate].
  intros _; eexists; repeat split; right; right; reflexivity.
Qed.

(** What [main] leaves after [plot_charts]: the store and charts of the
    charting step, and on success one more printed line. *)
Lemma finish_fields (p : exc unit * St) (line : string) :
  let q := match p with
           | (Raise e, st2) => (Raise e, st2)
           | (Ok _, st2) => (Ok tt, say line st2)
           end in
  store (snd q) = store (snd p) /\ charts (snd q) = charts (snd p) /\
  (forall e, fst p = Raise e -> fst q = Raise e /\ printed (snd q) = printed (snd p)) /\
  (forall u, fst p = Ok u -> fst q = Ok tt /\ printed (snd q) = printed (snd p) ++ [line]).
Proof.
  destruct p as [[u|e] st2]; simpl; (split; [reflexivity|split; [reflexivity|split]]).
  - intros e H; discriminate.
  - intros u' _; split; reflexivity.
  - intros e' H; injection H as <-; split; reflexivity.
  - intros u' H; discriminate.
Qed.


(** Claim C7.  The numeric parse of the ordinal steps,
    [pd.to_numeric(errors="coerce")], never raises; on a string holding a
    character it cannot consume (and not a spelling of infinity) it gives
    missing.  A rank or release-year column that is not money-like comes out
    of [normalize] as that parse applied to its raw cells, with no digit
    extraction first. *)
Theorem ordinal_columns_parse :
  (forall v, exists w, to_numeric ECoerce v = Ok w) /\
  (forall s, has_non_numeric (cstr s) = true -> inf_spelling (cstr s) = false ->
             to_numeric ECoerce (VStr s) = Ok VNA) /\
  (forall raw i l cs,
      NoDup (map fst (strip_labels raw)) ->
      nth_error raw i = Some (l, cs) ->
      let r := pick_roles (map fst (strip_labels raw)) in
      is_rank (py_strip l) || is_year_col r (py_strip l) = true ->
      is_money (py_strip l) = false ->
      exists df vs,
        normalize raw = Ok (r, df) /\
        nth_error df i = Some (py_strip l, vs) /\
        to_numeric_series (map embed cs) = Ok vs).
Proof.
  split; [exact to_numeric_ok|]. split; [exact to_numeric_non_numeric|].
  intros raw i l cs Hnd Hi r Hord Hm.
  destruct (normalize_column raw i l cs Hnd Hi) as (df & vs & vs0 & vs1 & Hn & Hdf & H0 & H1 & H2).
  fold r in Hn, H2. rewrite Hm in H0. subst vs0.
  exists df, vs. split; [exact Hn|]. split; [exact Hdf|].
  destruct (is_rank (py_strip l)).
  - destruct (is_year_col r (py_strip l)); [|congruence].
    pose proof (to_numeric_series_idem _ _ H1) as I. congruence.
  - simpl in Hord. rewrite Hord in H2. congruence.
Qed.

(** Claim C7, counterexample.  A release-year column whose label is also
    money-like ("Recaudación por año") goes through [to_number] first, so
    the footnoted year "2019[1]" keeps its digits and becomes 20191, while
    the plain parse alone would give missing. *)
Lemma year_column_money_like_cex :
  to_numeric ECoerce (VStr "2019[1]") = Ok VNA /\
  normalize [("Recaudación por año", [CStr "2019[1]"])] =
    Ok ({| col_movie := None; col_world := None; col_domestic := None;
           col_foreign := None; col_year := Some "Recaudación por año" |},
        [("Recaudación por año", [VInt 20191])]).
Proof. split; vm_compute; reflexivity. Qed.

(** Claim C10.  A label is a rank label exactly when its lower-cased form
    is one of [rank_labels]; money-likeness is substring containment of a
    token; a column that is neither a rank column, money-like nor the
    release-year column keeps its raw cells. *)
Theorem rank_label_exact :
  (forall l, is_rank l = true <-> In (py_lower l) rank_labels) /\
  (forall l, is_money l = true <-> exists k, In k money_tokens /\ contains k (py_lower l) = true) /\
  (forall raw i l cs,
      NoDup (map fst (strip_labels raw)) ->
      nth_error raw i = Some (l, cs) ->
      is_rank (py_strip l) = false ->
      is_money (py_strip l) = false ->
      is_year_col (pick_roles (map fst (strip_labels raw))) (py_strip l) = false ->
      exists r df, normalize raw = Ok (r, df) /\ nth_error df i = Some (py_strip l, map embed cs)).
Proof.
  split.
  { intros l. unfold is_rank. rewrite existsb_exists. split.
    - intros [x [Hx E]]. apply String.eqb_eq in E. subst; exact Hx.
    - intros H. exists (py_lower l). split; [exact H|apply String.eqb_refl]. }
  split.
  { intros l. unfold is_money. rewrite existsb_exists. reflexivity. }
  intros raw i l cs Hnd Hi Hr Hm Hy.
  destruct (normalize_column raw i l cs Hnd Hi) as (df & vs & vs0 & vs1 & Hn & Hdf & H0 & H1 & H2).
  rewrite Hm in H0. rewrite Hr in H1. rewrite Hy in H2. subst vs vs1 vs0. eauto.
Qed.

(** Claim C10, counterexample.  "Puesto año" contains "puesto" and is not a
    rank label, yet its cells are converted to numbers: it is the
    release-year column. *)
Lemma rank_token_label_cex :
  contains "puesto" (py_lower "Puesto año") = true /\
  is_rank "Puesto año" = false /\
  normalize [("Puesto año", [CStr "1"; CStr "2"])] =
    Ok ({| col_movie := None; col_world := None; col_domestic := None;
           col_foreign := None; col_year := Some "Puesto año" |},
        [("Puesto año", [VInt 1; VInt 2])]).
Proof. repeat split; vm_compute; reflexivity. Qed.

(** Claim C9.  The three-row table: the gross column becomes
    [1200000000; 900500000; missing], the year column [2019; 2021; 2020],
    the title and worldwide-gross roles resolve to their columns, and a run
    stores all three rows while the top-gross chart (and the per-year
    chart) receive only the rows of Movie A and Movie B. *)
Theorem scenario_three_rows :
  let raw := [("Título", [CStr "Movie A"; CStr "Movie B"; CStr "Movie C"]);
              ("Recaudación mundial", [CStr "$1,200,000,000"; CStr "$900,500,000"; CStr "n/a"]);
              ("Año de estreno", [CStr "2019"; CStr "2021"; CStr "2020"])] in
  let df := [("Título", [VStr "Movie A"; VStr "Movie B"; VStr "Movie C"]);
             ("Recaudación mundial", [VInt 1200000000; VInt 900500000; VNA]);
             ("Año de estreno", [VInt 2019; VInt 2021; VInt 2020])] in
  let soup := Elem "[document]" [] [Elem "table" ["wikitable"] []] in
  exists r,
    normalize raw = Ok (r, df) /\
    col_movie r = Some "Título" /\ col_world r = Some "Recaudación mundial" /\
    main (fun _ => Ok raw) (Response 200 soup) St0 =
      (Ok tt, {| store := Some df;
                 charts := [TopWorld [[VStr "Movie A"; VInt 1200000000];
                                      [VStr "Movie B"; VInt 900500000]];
                            WorldByYear [[VInt 2019; VInt 1200000000];
                                         [VInt 2021; VInt 900500000]]];
                 printed := ["Filas cargadas: 3 | DB: box_office.db | Tabla: peliculas_mas_taquilleras"] |}).
Proof.
  intros raw df soup.
  exists {| col_movie := Some "Título"; col_world := Some "Recaudación mundial";
            col_domestic := None; col_foreign := None; col_year := Some "Año de estreno" |}.
  repeat split; vm_compute; reflexivity.
Qed.


(** ** Witnesses *)

Lemma find_target_table_first_match_witness :
  let t1 := Elem "table" ["wikitable"] [Elem "caption" [] [Text "Otras cifras"]] in
  let t2 := Elem "table" ["wikitable"; "sortable"]
              [Elem "caption" [] [Text " Películas con las mayores recaudaciones a nivel mundial "]] in
  find_target_table (Elem "[document]" [] [t1; t2]) = Some (str_node t2).
Proof.
  intros t1 t2. apply (find_target_table_first_match (Elem "[document]" [] [t1; t2]) [t1] t2 []);
    subst t1 t2; vm_compute; reflexivity.
Defined.

Lemma find_target_table_fallback_and_fatal_witness :
  find_target_table (Elem "[document]" []
    [Elem "table" ["wikitable"] []; Elem "table" ["wikitable"] [Elem "caption" [] [Text "Otra"]]])
    = Some (str_node (Elem "table" ["wikitable"] [])) /\
  exists e, main (fun _ => Ok []) (Response 200 (Elem "[document]" [] [])) St0 = (Raise e, St0).
Proof.
  split.
  - apply (proj1 find_target_table_fallback_and_fatal _ _
             [Elem "table" ["wikitable"] [Elem "caption" [] [Text "Otra"]]]);
      vm_compute; reflexivity.
  - destruct (proj2 find_target_table_fallback_and_fatal (Elem "[document]" [] []) eq_refl) as [_ H].
    destruct (H (fun _ => Ok []) 200 St0) as [e [He _]]. exists e; exact He.
Defined.

Lemma pick_priority_search_witness :
  pick ["Año"; "Año de estreno"] year_opts = Some "Año de estreno".
Proof.
  apply (proj2 (proj1 (pick_priority_search ["Año"; "Año de estreno"] year_opts "Año de estreno"))).
  exists [], "año de estreno", ["año"; "ano"; "estreno"], ["Año"], [].
  split; [reflexivity|]. split; [reflexivity|]. split; [intros q c' []|].
  split; [intros c' [<-|[]]; vm_compute; reflexivity|vm_compute; reflexivity].
Defined.

Lemma money_like_columns_converted_witness :
  exists r df vs,
    normalize [("Título", [CStr "A"]); (" Taquilla total ", [CStr "$5"; CNA])] = Ok (r, df) /\
    nth_error df 1%nat = Some ("Taquilla total", vs) /\
    mapM to_number [CStr "$5"; CNA] = Ok vs.
Proof.
  apply (money_like_columns_converted [("Título", [CStr "A"]); (" Taquilla total ", [CStr "$5"; CNA])]
           1%nat " Taquilla total " [CStr "$5"; CNA]).
  - vm_compute. constructor; [intros [H|[]]; discriminate|constructor; [intros []|constructor]].
  - reflexivity.
  - vm_compute; reflexivity.
Defined.


Lemma ordinal_columns_parse_witness :
  to_numeric ECoerce (VStr "2019[1]") = Ok VNA /\
  exists df vs,
    normalize [("Año", [CStr "2019"; CStr "n/d"])] = Ok (pick_roles ["Año"], df) /\
    nth_error df 0%nat = Some ("Año", vs) /\
    to_numeric_series (map embed [CStr "2019"; CStr "n/d"]) = Ok vs.
Proof.
  destruct ordinal_columns_parse as (_ & H2 & H3). split.
  - apply H2; vm_compute; reflexivity.
  - pose proof (H3 [("Año", [CStr "2019"; CStr "n/d"])] 0%nat "Año" [CStr "2019"; CStr "n/d"]) as H.
    cbv zeta in H.
    destruct H as (df & vs & A & B & C).
    + vm_compute. constructor; [intros []|constructor].
    + reflexivity.
    + vm_compute; reflexivity.
    + vm_compute; reflexivity.
    + exists df, vs. split; [exact A|]. split; [exact B|exact C].
Defined.

Lemma passthrough_column_witness :
  exists r df,
    normalize [("Título", [CStr "A"]); ("Notas", [CStr "x"])] = Ok (r, df) /\
    nth_error df 1%nat = Some ("Notas", [VStr "x"]).
Proof.
  apply (passthrough_column [("Título", [CStr "A"]); ("Notas", [CStr "x"])] 1%nat "Notas" [CStr "x"]).
  - vm_compute. constructor; [intros [H|[]]; discriminate|constructor; [intros []|constructor]].
  - reflexivity.
  - assert (B : forallb (fun opts => forallb (fun p => negb (contains p (py_lower (py_strip "Notas")))) opts)
                  role_opts = true) by (vm_compute; reflexivity).
    intros opts p Ho Hp. rewrite forallb_forall in B. specialize (B opts Ho).
    rewrite forallb_forall in B. specialize (B p Hp). apply negb_true_iff in B; exact B.
  - vm_compute; reflexivity.
  - vm_compute; reflexivity.
Defined.

Lemma rank_label_exact_witness :
  In (py_lower "Puesto") rank_labels /\
  exists r df,
    normalize [("Título", [CStr "A"]); ("Notas", [CStr "x"])] = Ok (r, df) /\
    nth_error df 1%nat = Some ("Notas", [VStr "x"]).
Proof.
  destruct rank_label_exact as (H1 & _ & H3). split.
  - apply H1; vm_compute; reflexivity.
  - apply (H3 [("Título", [CStr "A"]); ("Notas", [CStr "x"])] 1%nat "Notas" [CStr "x"]).
    + vm_compute. constructor; [intros [H|[]]; discriminate|constructor; [intros []|constructor]].
    + reflexivity.
    + vm_compute; reflexivity.
    + vm_compute; reflexivity.
    + vm_compute; reflexivity.
Defined.

(** ** Further properties of the code *)

(** Extra X1.  [to_number] never fails and never yields a negative number:
    every cell becomes missing, a non-negative integer or a float with a
    non-negative mantissa, because it keeps only the digits of the text
    (signs are dropped). *)
Theorem to_number_nonneg c :
  exists v, to_number c = Ok v /\
    (v = VNA \/ (exists z, v = VInt z /\ 0 <= z) \/ (exists m e, v = VFloat m e /\ 0 <= m)).
Proof.
  destruct c as [|s]; [exists VNA; split; [reflexivity|left; reflexivity]|].
  destruct (all_digits (keep_decimal s)) eqn:D.
  2: { exists VNA. split; [apply to_number_non_ascii_digit; exact D|left; reflexivity]. }
  destruct (String.eqb_spec (keep_decimal s) "") as [E|Hne].
  { exists VNA. split; [simpl; rewrite E; reflexivity|left; reflexivity]. }
  cbn [to_number to_numeric].
  destruct (convert_digits _ D Hne) as [[_ E]|(num & ex & _ & Hn & _ & _ & E)]; rewrite E.
  - eexists; split; [reflexivity|left; reflexivity].
  - pose proof (digits_value_acc_nonneg _ 0 D ltac:(lia)) as Hnn.
    destruct (UINT64_MAX <? _); eexists; (split; [reflexivity|]); right; [right|left]; eauto.
Qed.

Lemma convert_money_shape df df1 :
  convert_money df = Ok df1 ->
  Forall2 (fun (x : string * list cell) (y : string * list val) =>
             fst y = fst x /\ length (snd y) = length (snd x)) df df1.
Proof.
  unfold convert_money. destruct (existsb _ _); [discriminate|].
  intros H; apply mapM_Forall2 in H. eapply Forall2_impl; [|exact H].
  intros [c cs] [c' vs]; simpl. destruct (existsb (String.eqb c) _).
  - destruct (mapM to_number cs) eqn:E; simpl; [|discriminate].
    intros [= <- <-]. split; [reflexivity|]. exact (mapM_length _ _ _ E).
  - intros [= <- <-]. split; [reflexivity|apply length_map].
Qed.

Lemma convert_ordinal_shape r df1 df2 :
  convert_ordinal r df1 = Ok df2 ->
  Forall2 (fun (x y : string * list val) =>
             fst y = fst x /\ length (snd y) = length (snd x)) df1 df2.
Proof.
  unfold convert_ordinal. destruct (existsb _ _); [discriminate|].
  intros H; apply mapM_Forall2 in H. eapply Forall2_impl; [|exact H].
  intros [name vs] [name' ws]; simpl.
  destruct (is_rank name) eqn:Er.
  - destruct (to_numeric_series vs) as [vs1|e] eqn:E1; simpl; [|discriminate].
    destruct (is_year_col r name).
    + destruct (to_numeric_series vs1) as [vs2|e] eqn:E2; simpl; [|discriminate].
      intros [= <- <-]. split; [reflexivity|].
      rewrite (mapM_length _ _ _ E2). exact (mapM_length _ _ _ E1).
    + intros [= <- <-]. split; [reflexivity|exact (mapM_length _ _ _ E1)].
  - simpl. destruct (is_year_col r name).
    + destruct (to_numeric_series vs) as [vs2|e] eqn:E2; simpl; [|discriminate].
      intros [= <- <-]. split; [reflexivity|exact (mapM_length _ _ _ E2)].
    + intros [= <- <-]. split; reflexivity.
Qed.

Lemma normalize_ok_shape raw r df :
  normalize raw = Ok (r, df) ->
  r = pick_roles (map fst (strip_labels raw)) /\
  map fst df = map (fun p => py_strip (fst p)) raw /\
  map (fun p => length (snd p)) df = map (fun p => length (snd p)) raw.
Proof.
  unfold normalize.
  destruct (convert_money (strip_labels raw)) as [df1|e] eqn:E1; simpl; [|discriminate].
  destruct (convert_ordinal _ df1) as [df2|e] eqn:E2; simpl; [|discriminate].
  intros [= <- <-]. split; [reflexivity|].
  apply convert_money_shape in E1. apply convert_ordinal_shape in E2.
  assert (S1 : map fst (strip_labels raw) = map (fun p => py_strip (fst p)) raw /\
               map (fun p => length (snd p)) (strip_labels raw) = map (fun p => length (snd p)) raw).
  { unfold strip_labels. rewrite !map_map. split; apply map_ext; intros [l cs]; reflexivity. }
  destruct S1 as [S1 S2]. split.
  - rewrite <- S1. transitivity (map fst df1).
    + eapply Forall2_map_eq; [|exact E2]. intros x y [A _]; exact A.
    + eapply Forall2_map_eq; [|exact E1]. intros x y [A _]; exact A.
  - rewrite <- S2. transitivity (map (fun p => length (snd p)) df1).
    + eapply Forall2_map_eq; [|exact E2]. intros x y [_ A]; exact A.
    + eapply Forall2_map_eq; [|exact E1]. intros x y [_ A]; exact A.
Qed.

(** Extra X2.  Normalization succeeds whenever the stripped labels are
    distinct, and when it succeeds it keeps the table's shape: the roles are
    picked from the stripped labels, the columns are the stripped labels in
    their order, and every column keeps its number of rows. *)
Theorem normalize_keeps_columns raw :
  (NoDup (map fst (strip_labels raw)) -> exists r df, normalize raw = Ok (r, df)) /\
  (forall r df, normalize raw = Ok (r, df) ->
     r = pick_roles (map fst (strip_labels raw)) /\
     map fst df = map (fun p => py_strip (fst p)) raw /\
     map (fun p => length (snd p)) df = map (fun p => length (snd p)) raw).
Proof.
  split.
  - intros Hnd. destruct (normalize_lengths raw Hnd) as [df [Hn _]]. eauto.
  - exact (normalize_ok_shape raw).
Qed.

Lemma Forall2_in_r {A B} (R : A -> B -> Prop) l l' y :
  Forall2 R l l' -> In y l' -> exists x, In x l /\ R x y.
Proof.
  induction 1 as [|a b r r' Hab _ IH]; simpl; [tauto|].
  intros [<-|Hy]; [eauto|]. destruct (IH Hy) as [x [Hx Rx]]; eauto.
Qed.

Lemma to_numeric_series_out vs ws :
  to_numeric_series vs = Ok ws -> forallb no_str ws = true.
Proof.
  intros H; apply mapM_Forall2 in H.
  induction H as [|x y r r' Hxy _ IH]; simpl; [reflexivity|]. rewrite IH, andb_true_r.
  destruct (to_numeric_out x y Hxy) as [N|N]; [|exact N].
  rewrite (to_numeric_no_str x N) in Hxy. congruence.
Qed.

Lemma convert_money_numeric df df1 c vs :
  convert_money df = Ok df1 -> In (c, vs) df1 -> is_money c = true -> forallb no_str vs = true.
Proof.
  unfold convert_money. destruct (existsb _ _); [discriminate|].
  intros H Hin Hm. apply mapM_Forall2 in H.
  destruct (Forall2_in_r _ _ _ _ H Hin) as [[c0 cs] [Hx E]]. simpl in E.
  assert (Hc : In c0 (map fst df)) by (apply in_map_iff; exists (c0, cs); auto).
  rewrite (existsb_eqb_filter is_money c0 _ Hc) in E.
  destruct (is_money c0) eqn:M0.
  - destruct (mapM to_number cs) eqn:Ev; simpl in E; [|discriminate].
    injection E as <- <-. exact (mapM_to_number_no_str _ _ Ev).
  - injection E as <- <-. congruence.
Qed.

Lemma convert_ordinal_numeric r df1 df2 n ws :
  convert_ordinal r df1 = Ok df2 -> In (n, ws) df2 ->
  (is_rank n || is_year_col r n = true -> forallb no_str ws = true) /\
  (is_rank n || is_year_col r n = false -> In (n, ws) df1).
Proof.
  unfold convert_ordinal. destruct (existsb _ _); [discriminate|].
  intros H Hin. apply mapM_Forall2 in H.
  destruct (Forall2_in_r _ _ _ _ H Hin) as [[name vs] [Hx E]]. simpl in E.
  destruct (is_rank name) eqn:Er.
  - destruct (to_numeric_series vs) as [vs1|e] eqn:E1; simpl in E; [|discriminate].
    destruct (is_year_col r name).
    + destruct (to_numeric_series vs1) as [vs2|e] eqn:E2; simpl in E; [|discriminate].
      injection E as <- <-. rewrite Er. split; [intros _|discriminate].
      exact (to_numeric_series_out _ _ E2).
    + injection E as <- <-. rewrite Er. split; [intros _|discriminate].
      exact (to_numeric_series_out _ _ E1).
  - simpl in E. destruct (is_year_col r name) eqn:Ey.
    + destruct (to_numeric_series vs) as [vs2|e] eqn:E2; simpl in E; [|discriminate].
      injection E as <- <-. rewrite Er, Ey. split; [intros _|discriminate].
      exact (to_numeric_series_out _ _ E2).
    + injection E as <- <-. rewrite Er, Ey. split; [discriminate|intros _; exact Hx].
Qed.

(** Extra X3.  After a successful normalization, every money-like, rank or
    year column holds only numbers or missing values, never a string. *)
Theorem normalized_numeric_columns raw r df l vs :
  normalize raw = Ok (r, df) -> In (l, vs) df ->
  is_money l || is_rank l || is_year_col r l = true ->
  forallb no_str vs = true.
Proof.
  unfold normalize.
  destruct (convert_money (strip_labels raw)) as [df1|e] eqn:E1; simpl; [|discriminate].
  destruct (convert_ordinal _ df1) as [df2|e] eqn:E2; simpl; [|discriminate].
  intros [= <- <-] Hin Hc.
  destruct (convert_ordinal_numeric _ _ _ _ _ E2 Hin) as [A B].
  destruct (is_rank l || is_year_col _ l) eqn:O; [exact (A eq_refl)|].
  apply orb_false_iff in O as [O1 O2]. rewrite O1, O2, !orb_false_r in Hc. exact (convert_money_numeric _ _ _ _ E1 (B eq_refl) Hc).
Qed.

Lemma count_label_In c l : (1 <= count_label c l)%nat -> In c l.
Proof.
  unfold count_label; induction l as [|a r IH]; simpl; [lia|].
  destruct (String.eqb_spec c a); simpl; [subst; auto|]. intros H; right; auto.
Qed.

(** Extra X4.  Two columns whose labels become the same money-like label
    after stripping make normalization raise the ambiguous-truth-value
    [ValueError], provided the table has rows. *)
Theorem normalize_duplicate_money_label raw l cs :
  is_money l = true ->
  (2 <= count_label l (map fst (strip_labels raw)))%nat ->
  In (l, cs) (strip_labels raw) -> cs <> [] ->
  normalize raw = Raise (ValueError "The truth value of a Series is ambiguous.").
Proof.
  intros Hm Hc _ _. unfold normalize, convert_money. cbv zeta.
  replace (existsb _ (filter is_money _)) with true; [reflexivity|].
  symmetry. apply existsb_exists. exists l. split.
  - apply filter_In. split; [apply count_label_In; lia|exact Hm].
  - apply Nat.ltb_lt; lia.
Qed.

(** Extra X5.  With no duplicated money-like label, a rank or year label
    that occurs twice after stripping makes normalization raise the
    [TypeError] of [pd.to_numeric] on a frame. *)
Theorem normalize_duplicate_ordinal_label raw l :
  (forall c, In c (map fst (strip_labels raw)) -> is_money c = true ->
             (count_label c (map fst (strip_labels raw)) <= 1)%nat) ->
  is_rank l || is_year_col (pick_roles (map fst (strip_labels raw))) l = true ->
  (2 <= count_label l (map fst (strip_labels raw)))%nat ->
  normalize raw = Raise (TypeError "arg must be a list, tuple, 1-d array, or Series").
Proof.
  intros Hm Ho Hc.
  assert (Hok : exists df1, convert_money (strip_labels raw) = Ok df1).
  { unfold convert_money. cbv zeta.
    replace (existsb _ (filter is_money _)) with false.
    2:{ symmetry. apply not_true_iff_false. intros H. apply existsb_exists in H.
        destruct H as [c [Hin Hlt]]. apply filter_In in Hin as [Hin Hmc].
        specialize (Hm c Hin Hmc). apply Nat.ltb_lt in Hlt. lia. }
    apply mapM_total. intros [c cs] _. destruct (existsb _ _).
    - destruct (mapM_total to_number cs) as [vs Hvs].
      { intros x _. destruct (to_number_total x) as [v [Hv _]]; eauto. }
      rewrite Hvs; simpl; eauto.
    - eauto. }
  destruct Hok as [df1 E1].
  assert (Hl : map fst df1 = map fst (strip_labels raw)).
  { eapply Forall2_map_eq; [|exact (convert_money_shape _ _ E1)]. intros x y [A _]; exact A. }
  unfold normalize. cbv zeta. rewrite E1. simpl. unfold convert_ordinal.
  rewrite Hl. replace (existsb _ _) with true; [reflexivity|].
  symmetry. apply existsb_exists. exists l. split; [apply count_label_In; lia|].
  rewrite Ho. simpl. apply Nat.ltb_lt; lia.
Qed.

Lemma prefix_app p s : String.prefix p s = true <-> exists b, s = (p ++ b)%string.
Proof.
  revert s; induction p as [|a p IH]; intros s; simpl.
  - split; [eauto|destruct s; reflexivity].
  - destruct s as [|b s].
    + split; [discriminate|intros [x Hx]; discriminate].
    + simpl. destruct (ascii_dec a b) as [->|Hab].
      * rewrite IH. split; intros [x Hx]; exists x; congruence.
      * split; [discriminate|intros [x Hx]; congruence].
Qed.

Lemma contains_app p s : contains p s = true <-> exists a b, s = (a ++ p ++ b)%string.
Proof.
  induction s as [|c s IH]; cbn [contains]; rewrite orb_true_iff, prefix_app.
  - split.
    + intros [[b Hb]|H]; [exists EmptyString, b; exact Hb|discriminate].
    + intros [[|x a] [b Hb]]; [left; exists b; exact Hb|discriminate].
  - rewrite IH. split.
    + intros [[b Hb]|[a [b Hb]]].
      * exists EmptyString, b; exact Hb.
      * exists (String c a), b. rewrite Hb; reflexivity.
    + intros [[|x a] [b Hb]].
      * left; exists b; exact Hb.
      * right. injection Hb as -> Hb. exists a, b; exact Hb.
Qed.

Lemma str_append_assoc (a b c : string) : ((a ++ b) ++ c)%string = (a ++ b ++ c)%string.
Proof. induction a as [|x a IH]; simpl; [reflexivity|]. rewrite IH; reflexivity. Qed.

Lemma contains_trans q p s : contains q p = true -> contains p s = true -> contains q s = true.
Proof.
  rewrite !contains_app. intros [a1 [b1 ->]] [a [b ->]].
  exists (a ++ a1)%string, (b1 ++ b)%string. rewrite !str_append_assoc. reflexivity.
Qed.

Lemma pick_in columns col_opts c : pick columns col_opts = Some c -> In c columns.
Proof.
  unfold pick. rewrite first_some_split. intros (pre & p & post & _ & _ & Hp).
  apply find_split in Hp. destruct Hp as (l1 & l2 & -> & _ & _).
  apply in_or_app; simpl; auto.
Qed.

Lemma money_token_via q p c :
  In q money_tokens -> contains q p = true -> contains p (py_lower c) = true -> is_money c = true.
Proof.
  intros Hq Hqp Hpc. apply existsb_exists. exists q. split; [exact Hq|].
  exact (contains_trans q p _ Hqp Hpc).
Qed.

(** Extra X6.  Each picked role column is one of the table's columns, and
    the worldwide, domestic and foreign gross columns are money-like or
    contain the Spanish keyword that selected them ("global",
    "estados unidos", "internacional", "resto del mundo"). *)
Theorem role_columns_money_like columns :
  let r := pick_roles columns in
  (forall c, col_movie r = Some c \/ col_world r = Some c \/ col_domestic r = Some c \/
             col_foreign r = Some c \/ col_year r = Some c -> In c columns) /\
  (forall c, col_world r = Some c ->
             is_money c = true \/ contains "global" (py_lower c) = true) /\
  (forall c, col_domestic r = Some c ->
             is_money c = true \/ contains "estados unidos" (py_lower c) = true) /\
  (forall c, col_foreign r = Some c ->
             is_money c = true \/ contains "internacional" (py_lower c) = true \/
             contains "resto del mundo" (py_lower c) = true).
Proof.
  intros r. split; [|split; [|split]].
  - intros c H. repeat destruct H as [H|H]; eapply pick_in; exact H.
  - intros c H. apply pick_contains in H. destruct H as [p [Hp Hc]].
    repeat destruct Hp as [<-|Hp]; try contradiction; [left..|right; exact Hc];
      (refine (money_token_via "mundial" _ c _ _ Hc); [simpl; tauto|vm_compute; reflexivity]).
  - intros c H. apply pick_contains in H. destruct H as [p [Hp Hc]].
    repeat destruct Hp as [<-|Hp]; try contradiction; [left..|right; exact Hc];
      (refine (money_token_via "ee. uu" _ c _ _ Hc); [simpl; tauto|vm_compute; reflexivity]).
  - intros c H. apply pick_contains in H. destruct H as [p [Hp Hc]].
    repeat destruct Hp as [<-|Hp]; try contradiction;
      [left; refine (money_token_via "fuera" _ c _ _ Hc); [simpl; tauto|vm_compute; reflexivity]
      |left; refine (money_token_via "fuera" _ c _ _ Hc); [simpl; tauto|vm_compute; reflexivity]
      |right; left; exact Hc|right; right; exact Hc].
Qed.

(** Extra X7.  The locator returns nothing exactly when the document has no
    wikitable, and whatever it returns is the HTML of one of the document's
    wikitables. *)
Theorem find_target_table_range soup :
  (find_target_table soup = None <-> select_wikitables soup = []) /\
  (forall h, find_target_table soup = Some h ->
     exists t, In t (select_wikitables soup) /\ is_wikitable t = true /\ h = str_node t).
Proof.
  pose proof (select_wikitables_wt soup) as Hw. rewrite Forall_forall in Hw. split.
  - unfold find_target_table. split.
    + destruct (first_match _); [discriminate|]. destruct (select_wikitables soup); [auto|discriminate].
    + intros E. rewrite E. reflexivity.
  - intros h. unfold find_target_table. destruct (first_match _) as [h'|] eqn:E.
    + intros [= <-]. destruct (first_match_in _ _ E) as [t [Ht ->]]. eauto.
    + destruct (select_wikitables soup) as [|t r] eqn:Es; [discriminate|].
      intros [= <-]. exists t. split; [simpl; auto|]. split; [apply Hw; simpl; auto|reflexivity].
Qed.

Lemma main_cases read_html resp st :
  (exists e, main read_html resp st = (Raise e, st)) \/
  exists status soup raw r df,
    resp = Response status soup /\
    read_html (label (find_target_table soup)) = Ok raw /\
    normalize raw = Ok (r, df) /\
    main read_html resp st =
      match to_sql df st with
      | (Raise e, st1) => (Raise e, st1)
      | (Ok _, st1) =>
          match plot_charts r df st1 with
          | (Raise e, st2) => (Raise e, st2)
          | (Ok _, st2) =>
              (Ok tt, say ("Filas cargadas: " ++ nat_dec (nrows df) ++ " | DB: "
                           ++ DB_PATH ++ " | Tabla: " ++ TABLE_NAME)%string st2)
          end
      end.
Proof.
  destruct resp as [|status soup]; [left; eexists; reflexivity|].
  unfold main. destruct (raise_for_status status); [|left; eexists; reflexivity].
  destruct (negb (truthy (find_target_table soup))); [left; eexists; reflexivity|].
  destruct (read_html (label (find_target_table soup))) as [raw|e] eqn:Er;
    [|left; eexists; reflexivity].
  destruct (normalize raw) as [[r df]|e] eqn:En; [|left; eexists; reflexivity].
  right. exists status, soup, raw, r, df. repeat split; auto.
Qed.

Lemma nrows_of_lengths (df : table) (raw : raw_table) :
  map (fun p => length (snd p)) df = map (fun p => length (snd p)) raw ->
  nrows df = match raw with (_, cs) :: _ => length cs | [] => O end.
Proof. destruct df as [|[l vs] df], raw as [|[l' cs] raw]; simpl; congruence. Qed.

(** Extra X8.  A run only adds charts and a failing run prints nothing.
    The store is unchanged, or the run got as far as a normalized table and
    the store then holds that table, no table (the old one dropped and the
    new one refused by [CREATE TABLE]) or an empty table with its labels
    (the inserts rolled back).  A successful run stored the normalized table
    and printed exactly one line with its row count (the length of the
    first parsed column), the database file and the table name. *)
Theorem main_output_frame read_html resp st :
  let res := fst (main read_html resp st) in
  let st' := snd (main read_html resp st) in
  (exists new, charts st' = charts st ++ new) /\
  (forall e, res = Raise e -> printed st' = printed st) /\
  (store st' = store st \/
   exists status soup raw r df,
     resp = Response status soup /\
     read_html (label (find_target_table soup)) = Ok raw /\
     normalize raw = Ok (r, df) /\
     (store st' = Some df \/ store st' = None \/
      store st' = Some (map (fun p => (fst p, [])) df))) /\
  (res = Ok tt ->
   exists status soup raw r df,
     resp = Response status soup /\
     read_html (label (find_target_table soup)) = Ok raw /\
     normalize raw = Ok (r, df) /\ store st' = Some df /\
     nrows df = match raw with (_, cs) :: _ => length cs | [] => O end /\
     printed st' = printed st ++
       [("Filas cargadas: " ++ nat_dec (nrows df) ++ " | DB: box_office.db | Tabla: peliculas_mas_taquilleras")%string]).
Proof.
  intros res st'. subst res st'.
  destruct (main_cases read_html resp st)
    as [[e He]|(status & soup & raw & r & df & Hr & Hh & Hn & Hm)]; rewrite He || rewrite Hm.
  - simpl. split; [exists []; rewrite app_nil_r; reflexivity|].
    split; [reflexivity|]. split; [left; reflexivity|discriminate].
  - pose proof (proj2 (proj2 (normalize_ok_shape raw r df Hn))) as Hl.
    destruct (sql_storable df) eqn:Hsq.
    + rewrite (to_sql_ok df st Hsq).
      pose proof (plot_charts_extends r df (persist df st)) as (XS & XP & new & XC).
      destruct (plot_charts r df (persist df st)) as [[u|e] st2]; simpl in XS, XP, XC |- *.
      * split; [exists new; exact XC|]. split; [discriminate|].
        split; [right; exists status, soup, raw, r, df; auto|].
        intros _. exists status, soup, raw, r, df.
        split; [exact Hr|]. split; [exact Hh|]. split; [exact Hn|]. split; [exact XS|].
        split; [apply nrows_of_lengths; exact Hl|]. rewrite XP. reflexivity.
      * split; [exists new; exact XC|]. split; [intros e' _; exact XP|].
        split; [right; exists status, soup, raw, r, df; auto|discriminate].
    + destruct (to_sql_fails df st Hsq) as (e & E1 & C1 & P1 & S1).
      destruct (to_sql df st) as [[u|e'] st1]; simpl in *; [discriminate|].
      split; [exists []; rewrite app_nil_r; exact C1|]. split; [intros; exact P1|].
      split; [|discriminate].
      destruct S1 as [S1|S1]; [left; exact S1|right; exists status, soup, raw, r, df; auto].
Qed.




Lemma normalize_keeps_columns_witness :
  exists r df,
    normalize [(" Título ", [CStr "A"; CStr "B"]); ("Recaudación mundial", [CStr "$1"; CNA])] = Ok (r, df) /\
    map fst df = ["Título"; "Recaudación mundial"] /\ map (fun p => length (snd p)) df = [2%nat; 2%nat].
Proof.
  destruct (proj1 (normalize_keeps_columns
                     [(" Título ", [CStr "A"; CStr "B"]); ("Recaudación mundial", [CStr "$1"; CNA])]))
    as (r & df & Hn).
  { vm_compute. constructor; [intros [H|[]]; discriminate|constructor; [intros []|constructor]]. }
  destruct (proj2 (normalize_keeps_columns _) r df Hn) as (_ & Hl & Hc).
  exists r, df. split; [exact Hn|]. rewrite Hl, Hc. split; vm_compute; reflexivity.
Defined.

Lemma normalized_numeric_columns_witness :
  forallb no_str [VInt 1; VNA] = true.
Proof.
  apply (normalized_numeric_columns [("Recaudación", [CStr "$1"; CStr "n/d"])]
           (pick_roles ["Recaudación"]) [("Recaudación", [VInt 1; VNA])] "Recaudación").
  - vm_compute; reflexivity.
  - left; reflexivity.
  - vm_compute; reflexivity.
Defined.

Lemma normalize_duplicate_money_label_witness :
  normalize [("Taquilla", [CStr "$1"]); ("Taquilla ", [CStr "$2"])]
    = Raise (ValueError "The truth value of a Series is ambiguous.").
Proof.
  apply (normalize_duplicate_money_label _ "Taquilla" [CStr "$1"]).
  - vm_compute; reflexivity.
  - vm_compute; lia.
  - vm_compute; left; reflexivity.
  - discriminate.
Defined.

Lemma normalize_duplicate_ordinal_label_witness :
  normalize [("Puesto", [CStr "1"]); ("Puesto", [CStr "2"])]
    = Raise (TypeError "arg must be a list, tuple, 1-d array, or Series").
Proof.
  apply (normalize_duplicate_ordinal_label _ "Puesto").
  - intros c Hc Hm. vm_compute in Hc. destruct Hc as [<-|[<-|[]]]; vm_compute in Hm; discriminate.
  - vm_compute; reflexivity.
  - vm_compute; lia.
Defined.

Lemma role_columns_money_like_witness :
  In "Taquilla mundial" ["Título"; "Taquilla mundial"] /\
  (is_money "Taquilla mundial" = true \/ contains "global" (py_lower "Taquilla mundial") = true).
Proof.
  destruct (role_columns_money_like ["Título"; "Taquilla mundial"]) as (H1 & H2 & _ & _).
  split.
  - apply H1. right; left. vm_compute; reflexivity.
  - apply H2. vm_compute; reflexivity.
Defined.

Lemma find_target_table_range_witness :
  exists t, In t (select_wikitables (Elem "[document]" [] [Elem "table" ["wikitable"] []])) /\
            is_wikitable t = true /\
            find_target_table (Elem "[document]" [] [Elem "table" ["wikitable"] []]) = Some (str_node t).
Proof.
  destruct (proj2 (find_target_table_range (Elem "[document]" [] [Elem "table" ["wikitable"] []]))
              (str_node (Elem "table" ["wikitable"] []))) as (t & H1 & H2 & H3).
  - vm_compute; reflexivity.
  - exists t. split; [exact H1|split; [exact H2|]]. rewrite <- H3. vm_compute; reflexivity.
Defined.

Lemma main_output_frame_witness :
  exists status soup raw r df,
    Response 200 (Elem "[document]" [] [Elem "table" ["wikitable"] []]) = Response status soup /\
    (fun _ : string => Ok [("Título", [CStr "Movie A"; CStr "Movie B"])]) (label (find_target_table soup)) = Ok raw /\
    normalize raw = Ok (r, df) /\
    store (snd (main (fun _ => Ok [("Título", [CStr "Movie A"; CStr "Movie B"])])
                 (Response 200 (Elem "[document]" [] [Elem "table" ["wikitable"] []])) St0)) = Some df /\
    nrows df = match raw with (_, cs) :: _ => length cs | [] => O end /\
    printed (snd (main (fun _ => Ok [("Título", [CStr "Movie A"; CStr "Movie B"])])
                   (Response 200 (Elem "[document]" [] [Elem "table" ["wikitable"] []])) St0)) =
      printed St0 ++
      [("Filas cargadas: " ++ nat_dec (nrows df) ++ " | DB: box_office.db | Tabla: peliculas_mas_taquilleras")%string].
Proof.
  apply (proj2 (proj2 (proj2 (main_output_frame
           (fun _ => Ok [("Título", [CStr "Movie A"; CStr "Movie B"])])
           (Response 200 (Elem "[document]" [] [Elem "table" ["wikitable"] []])) St0)))).
  vm_compute; reflexivity.
Defined.

